(** * The Kubernetes chaincode controller of [core/container/kubernetescontroller]

    A shallow embedding of [kubernetescontroller.go]: the naming function
    [GetVMName], and the lifecycle operations [Deploy], [Start], [Stop],
    [stopInternal] and [Destroy] of [KubernetesVM], followed by the properties
    of the naming scheme and of the calls the controller makes on its
    Kubernetes client.

    The source file holds two revisions of the controller.  The embedding
    follows the first (its lines 1 to 219); the second differs in the
    signature of [Start] and in the deployment [Start] builds, and has the
    same [GetVMName], [Stop], [stopInternal], [Destroy] and [Deploy].

    After the controller come the client constructor of
    [core/container/util] ([NewKubernetesClient], [buildConfigFromFlags]),
    with [NewKubernetesVM] and [getKubernetesClient] that install it, and,
    in a module of its own, [Start] as the second revision has it.

    Go strings are byte sequences, so they are [string] here (a list of
    8-bit characters).  The calls on the client, on the logger and on the
    [viper] configuration are effects of the Go code; they are threaded
    through an explicit [World]. *)

From Stdlib Require Import ZArith Ascii String List Bool Lia.
From stdpp Require Import base option gmap strings.

Local Open Scope string_scope.
Local Open Scope Z_scope.

(** ** Bytes and slices of Go strings *)

(** [s[i]] as a number, for a byte of the string. *)
Definition byte_of (c : ascii) : Z := Z.of_N (N_of_ascii c).

(** [s[n:]]. *)
Fixpoint slice_from (n : nat) (s : string) : string :=
  match n, s with
  | O, _ => s
  | S n', String _ t => slice_from n' t
  | S _, EmptyString => EmptyString
  end.

(** [s[:n]]. *)
Fixpoint slice_to (n : nat) (s : string) : string :=
  match n, s with
  | O, _ => EmptyString
  | S n', String c t => String c (slice_to n' t)
  | S _, EmptyString => EmptyString
  end.

(** [s[i]] where the index is in range, 0 otherwise (the decoder below only
    reads below [len(s)]). *)
Definition byte_at (s : string) (i : nat) : Z :=
  match String.get i s with
  | Some c => byte_of c
  | None => 0
  end.

(** ** [unicode/utf8]: the decoder the regexp engine steps through its input with *)

Module utf8.

Definition RuneError : Z := 0xFFFD.

Definition maskx : Z := 0x3F.
Definition mask2 : Z := 0x1F.
Definition mask3 : Z := 0x0F.
Definition mask4 : Z := 0x07.

Definition locb : Z := 0x80.
Definition hicb : Z := 0xBF.

(** The codes of the [first] table: the low three bits give the size of the
    encoding, the high four the index into [acceptRanges]. *)
Definition xx : Z := 0xF1.
Definition as_ : Z := 0xF0.
Definition s1 : Z := 0x02.
Definition s2 : Z := 0x13.
Definition s3 : Z := 0x03.
Definition s4 : Z := 0x23.
Definition s5 : Z := 0x34.
Definition s6 : Z := 0x04.
Definition s7 : Z := 0x44.

(** [first[b]]: information about the first byte of an encoding. *)
Definition first (b : Z) : Z :=
  if b <? 0x80 then as_
  else if b <? 0xC2 then xx
  else if b <? 0xE0 then s1
  else if b =? 0xE0 then s2
  else if b <? 0xED then s3
  else if b =? 0xED then s4
  else if b <? 0xF0 then s3
  else if b =? 0xF0 then s5
  else if b <? 0xF4 then s6
  else if b =? 0xF4 then s7
  else xx.

(** [acceptRanges[i]]: the range the second byte must lie in. *)
Definition acceptRanges (i : Z) : Z * Z :=
  match i with
  | 0 => (locb, hicb)
  | 1 => (0xA0, hicb)
  | 2 => (locb, 0x9F)
  | 3 => (0x90, hicb)
  | 4 => (locb, 0x8F)
  | _ => (0, 0)
  end.

(** A value of Go's [int32] ([rune]) after an operation that may overflow. *)
Definition int32 (z : Z) : Z := (z + 2 ^ 31) mod 2 ^ 32 - 2 ^ 31.

(** [utf8.DecodeRuneInString]: the first rune of [s] and the number of bytes
    of its encoding; an invalid or short encoding is [RuneError] of width 1,
    the empty string is [RuneError] of width 0. *)
Definition DecodeRuneInString (s : string) : Z * nat :=
  let n := String.length s in
  if (n <? 1)%nat then (RuneError, 0%nat)
  else
    let b0 := byte_at s 0 in
    let x := first b0 in
    if as_ <=? x then
      let mask := Z.shiftr (int32 (Z.shiftl x 31)) 31 in
      (Z.lor (Z.land b0 (Z.lnot mask)) (Z.land RuneError mask), 1%nat)
    else
      let sz := Z.to_nat (Z.land x 7) in
      let accept := acceptRanges (Z.shiftr x 4) in
      if (n <? sz)%nat then (RuneError, 1%nat)
      else
        let b1 := byte_at s 1 in
        if (b1 <? fst accept) || (snd accept <? b1) then (RuneError, 1%nat)
        else if (sz <=? 2)%nat then
          (Z.lor (Z.shiftl (Z.land b0 mask2) 6) (Z.land b1 maskx), 2%nat)
        else
          let b2 := byte_at s 2 in
          if (b2 <? locb) || (hicb <? b2) then (RuneError, 1%nat)
          else if (sz <=? 3)%nat then
            (Z.lor (Z.lor (Z.shiftl (Z.land b0 mask3) 12)
                          (Z.shiftl (Z.land b1 maskx) 6))
                   (Z.land b2 maskx), 3%nat)
          else
            let b3 := byte_at s 3 in
            if (b3 <? locb) || (hicb <? b3) then (RuneError, 1%nat)
            else
              (Z.lor (Z.lor (Z.lor (Z.shiftl (Z.land b0 mask4) 18)
                                   (Z.shiftl (Z.land b1 maskx) 12))
                            (Z.shiftl (Z.land b2 maskx) 6))
                     (Z.land b3 maskx), 4%nat).

(** [[]rune(s)]: the runes of [s] in order.  Each step consumes at least one
    byte, so [len(s)] steps always reach the end of the string. *)
Fixpoint runes_from (fuel : nat) (s : string) : list Z :=
  match fuel with
  | O => []
  | S fuel' =>
      match s with
      | EmptyString => []
      | String _ _ =>
          let '(r, w) := DecodeRuneInString s in
          r :: runes_from fuel' (slice_from w s)
      end
  end.

Definition runes (s : string) : list Z := runes_from (String.length s) s.

End utf8.

(** ** [regexp]: bracket expressions and [ReplaceAllString] *)

Module regexp.

(** A compiled expression that is one bracket expression, the only form the
    controller compiles: the ranges listed between the brackets, and whether
    the class is negated by a leading [^]. *)
Record Regexp := MustCompile {
  negated : bool;
  ranges : list (Z * Z)
}.

Definition in_ranges (rs : list (Z * Z)) (r : Z) : bool :=
  existsb (fun lh => (fst lh <=? r) && (r <=? snd lh)) rs.

(** Whether the expression matches the one-rune text [r]. *)
Definition matchRune (re : Regexp) (r : Z) : bool :=
  xorb (negated re) (in_ranges (ranges re) r).

(** The loop of [ReplaceAllString]: at each position the next rune is decoded;
    a rune the expression matches is replaced by [repl] and skipped whole, any
    other is copied with all its bytes. *)
Fixpoint replaceAll (re : Regexp) (repl : string) (fuel : nat) (src : string) : string :=
  match fuel with
  | O => EmptyString
  | S fuel' =>
      match src with
      | EmptyString => EmptyString
      | String _ _ =>
          let '(r, w) := utf8.DecodeRuneInString src in
          (if matchRune re r then repl else slice_to w src)
            ++ replaceAll re repl fuel' (slice_from w src)
      end
  end.

(** [re.ReplaceAllString(src, repl)], for a [repl] without [$]. *)
Definition ReplaceAllString (re : Regexp) (src repl : string) : string :=
  replaceAll re repl (String.length src) src.

End regexp.

(** ** [strings.Replace] *)

Module strings.

(** The loop of [strings.Replace(s, old, new, -1)] for a non-empty [old]: the
    leftmost occurrence of [old] is replaced and the search goes on after
    it. *)
Fixpoint replaceFrom (fuel : nat) (s old new : string) : string :=
  match fuel with
  | O => s
  | S fuel' =>
      match s with
      | EmptyString => EmptyString
      | String c t =>
          if String.prefix old s
          then new ++ replaceFrom fuel' (slice_from (String.length old) s) old new
          else String c (replaceFrom fuel' t old new)
      end
  end.

(** [strings.Replace(s, old, new, -1)]; [s] is returned as it is when [old]
    and [new] are equal.  [old] is not empty at the one call of this
    package. *)
Definition Replace (s old new : string) : string :=
  if String.eqb old new then s
  else replaceFrom (String.length s) s old new.

End strings.

(** ** [ccintf.CCID] *)

(** Modelled from the spec: the declaration of [ccintf.CCID] and its
    [GetName] method are not among the files at hand.  The spec's workload
    identity is the network id, the peer id and a base name, the base name
    being what [GetName] returns. *)
Record CCID := {
  NetworkID : string;
  PeerID : string;
  baseName : string
}.

Definition GetName (ccid : CCID) : string := baseName ccid.

(** ** Errors *)

(** The values of Go's [error] interface the controller handles: the status
    errors of the Kubernetes API (a reason such as [NotFound] and a message),
    and plain errors made with [errors.New] or [fmt.Errorf]. *)
Inductive error : Type :=
| StatusError (reason message : string)
| errorString (message : string).

(** ** Naming *)

(** [vmRegExp = regexp.MustCompile("[^a-zA-Z0-9-_.]")]. *)
Definition vmRegExp : regexp.Regexp :=
  regexp.MustCompile true
    [ (byte_of "a", byte_of "z"); (byte_of "A", byte_of "Z");
      (byte_of "0", byte_of "9"); (byte_of "-", byte_of "-");
      (byte_of "_", byte_of "_"); (byte_of ".", byte_of ".") ].

(** The name before formatting and sanitization: [ccid.GetName()] with the
    network id and the peer id that are not empty in front of it. *)
Definition joinedName (ccid : CCID) : string :=
  let name := GetName ccid in
  if negb (NetworkID ccid =? "")%string && negb (PeerID ccid =? "")%string then
    NetworkID ccid ++ "-" ++ PeerID ccid ++ "-" ++ name
  else if negb (NetworkID ccid =? "")%string then
    NetworkID ccid ++ "-" ++ name
  else if negb (PeerID ccid =? "")%string then
    PeerID ccid ++ "-" ++ name
  else name.

(** [GetVMName]: the receiver is not used.  [format] is [None] for a nil
    function. *)
Definition GetVMName (ccid : CCID) (format : option (string -> string * option error))
  : string * option error :=
  let name := joinedName ccid in
  match format with
  | Some f =>
      let '(formattedName, err) := f name in
      match err with
      | Some e => (formattedName, Some e)
      | None => (regexp.ReplaceAllString vmRegExp formattedName "-", None)
      end
  | None => (regexp.ReplaceAllString vmRegExp name "-", None)
  end.

(** ** The Kubernetes API types the controller builds *)

Module metav1.

(** [metav1.DeletionPropagation] and its three constants. *)
Inductive DeletionPropagation : Type :=
| DeletePropagationOrphan
| DeletePropagationBackground
| DeletePropagationForeground.

(** [metav1.DeleteOptions]; the controller sets [PropagationPolicy] and
    leaves the other fields at their zero values. *)
Record DeleteOptions := {
  PropagationPolicy : option DeletionPropagation
}.

(** [metav1.ObjectMeta], with the two fields the controller sets. *)
Record ObjectMeta := {
  Name : string;
  Labels : gmap string string
}.

End metav1.

Module apiv1.

Definition NamespaceDefault : string := "default".

Record EnvVar := {
  EnvVar_Name : string;
  EnvVar_Value : string
}.

Record Container := {
  Container_Name : string;
  Image : string;
  Command : list string;
  Env : list EnvVar
}.

Record PodSpec := {
  Containers : list Container
}.

Record PodTemplateSpec := {
  Template_ObjectMeta : metav1.ObjectMeta;
  Template_Spec : PodSpec
}.

End apiv1.

Module appsv1beta1.

Record DeploymentSpec := {
  Replicas : option Z;
  Template : apiv1.PodTemplateSpec
}.

Record Deployment := {
  ObjectMeta : metav1.ObjectMeta;
  Spec : DeploymentSpec
}.

End appsv1beta1.

(** A call made on the deployments interface of the client,
    [client.AppsV1beta1().Deployments(namespace)], as the API server sees
    it. *)
Inductive Request : Type :=
| CreateRequest (namespace : string) (deployment : appsv1beta1.Deployment)
| DeleteRequest (namespace name : string) (options : metav1.DeleteOptions).

(** A call on [kubernetesLogger]: the level, the format string and the
    arguments, not rendered. *)
Inductive LogLevel : Type := DEBUG | ERROR.

Inductive LogArg : Type :=
| ArgString (s : string)
| ArgError (e : error).

Record LogRecord := {
  level : LogLevel;
  format : string;
  args : list LogArg
}.

Definition int32Ptr (i : Z) : option Z := Some i.

(** The deployment [Start] creates: one replica of one container, with the
    labels, the image, the command and the environment written in the
    source; only the name varies. *)
Definition startDeployment (deploymentID : string) : appsv1beta1.Deployment :=
  {| appsv1beta1.ObjectMeta :=
       {| metav1.Name := deploymentID; metav1.Labels := ∅ |};
     appsv1beta1.Spec :=
       {| appsv1beta1.Replicas := int32Ptr 1;
          appsv1beta1.Template :=
            {| apiv1.Template_ObjectMeta :=
                 {| metav1.Name := "";
                    metav1.Labels :=
                      <["app" := "fabric"]>
                      (<["org.hyperledger.fabric.base.version" := "0.3.2"]>
                      (<["org.hyperledger.fabric.chaincode.id.name" := "mycc"]>
                      (<["org.hyperledger.fabric.chaincode.id.version" := "1.0"]>
                      (<["org.hyperledger.fabric.chaincode.type" := "GOLANG"]>
                      (<["org.hyperledger.fabric.version" := "1.0.4"]> ∅))))) |};
               apiv1.Template_Spec :=
                 {| apiv1.Containers :=
                      [ {| apiv1.Container_Name := "fabric-chaincode-mycc-container";
                           apiv1.Image := "hub.estaleiro.serpro/bilhetador/fabric-chaincode-mycc:1.0";
                           apiv1.Command := ["chaincode"; "-peer.address=peer0:7051"];
                           apiv1.Env :=
                             [ {| apiv1.EnvVar_Name := "CORE_CHAINCODE_ID_NAME"; apiv1.EnvVar_Value := "mycc:1.0" |};
                               {| apiv1.EnvVar_Name := "CORE_PEER_TLS_ENABLED"; apiv1.EnvVar_Value := "true" |};
                               {| apiv1.EnvVar_Name := "CORE_CHAINCODE_LOGGING_LEVEL"; apiv1.EnvVar_Value := "info" |};
                               {| apiv1.EnvVar_Name := "CORE_CHAINCODE_LOGGING_SHIM"; apiv1.EnvVar_Value := "warning" |};
                               {| apiv1.EnvVar_Name := "CORE_CHAINCCORE_CHAINCODE_LOGGING_FORMATODE_ID_NAME";
                                  apiv1.EnvVar_Value := "%{color}%{time:2006-01-02 15:04:05.000 MST} [%{module}] %{shortfunc} -> %{level:.4s} %{id:03x}%{color:reset} %{message}" |};
                               {| apiv1.EnvVar_Name := "PATH";
                                  apiv1.EnvVar_Value := "/usr/local/sbin:/usr/local/bin:/usr/sbin:/usr/bin:/sbin:/bin" |};
                               {| apiv1.EnvVar_Name := "CORE_CHAINCODE_BUILDLEVEL"; apiv1.EnvVar_Value := "1.0.4" |};
                               {| apiv1.EnvVar_Name := "CORE_PEER_TLS_ROOTCERT_FILE";
                                  apiv1.EnvVar_Value := "/etc/hyperledger/fabric/peer.crt" |} ] |} ] |} |} |} |}.

(** ** The world the controller acts on, and the controller *)

Section Controller.

(** The state of the cluster behind the API server; nothing is assumed of
    it. *)
Context {Cluster : Type}.

(** The types of the arguments the operations receive and never look into. *)
Context {context_Context io_Reader BuildSpecFactory PrelaunchFunc : Type}.

(** [*kubernetes.Clientset], as far as the controller uses it: how the
    server behind it answers a create and a delete of a deployment in a
    namespace.  Each answer is the [error] the Go call returns ([None] for
    nil) and the cluster after the call. *)
Record Clientset := {
  serveCreate : string -> appsv1beta1.Deployment -> Cluster -> option error * Cluster;
  serveDelete : string -> string -> metav1.DeleteOptions -> Cluster -> option error * Cluster
}.

(** What the Go code reads and changes besides its arguments: the [viper]
    configuration, the cluster, and, for the record, the calls made on the
    client and on the logger, oldest first. *)
Record World := {
  config : gmap string string;
  cluster : Cluster;
  calls : list Request;
  logs : list LogRecord
}.

(** Go code with effects: a function of the world that returns a value and
    the world after it. *)
Definition M (A : Type) : Type := World -> A * World.

Definition ret {A} (a : A) : M A := fun w => (a, w).

Definition bind {A B} (m : M A) (k : A -> M B) : M B :=
  fun w => let '(a, w') := m w in k a w'.

Notation "'let*' x ':=' m 'in' k" := (bind m (fun x => k))
  (at level 10, x name, m at level 100, k at level 200).
Notation "m ';;' k" := (bind m (fun _ => k))
  (at level 100, k at level 200, right associativity).

(** [viper.IsSet(key)] and [viper.GetString(key)]. *)
Definition viper_IsSet (key : string) : M bool :=
  fun w => (bool_decide (is_Some (config w !! key)), w).

Definition viper_GetString (key : string) : M string :=
  fun w => (default "" (config w !! key), w).

Definition logf (l : LogLevel) (fmt : string) (a : list LogArg) : M unit :=
  fun w => (tt, {| config := config w; cluster := cluster w; calls := calls w;
                   logs := logs w ++ [ {| level := l; format := fmt; args := a |} ] |}).

Definition Debugf := logf DEBUG.
Definition Errorf := logf ERROR.

(** [client.AppsV1beta1().Deployments(namespace).Create(deployment)]; the
    object the call returns beside the error is dropped by the caller. *)
Definition Deployments_Create (client : Clientset) (namespace : string)
    (deployment : appsv1beta1.Deployment) : M (option error) :=
  fun w =>
    let '(err, c) := serveCreate client namespace deployment (cluster w) in
    (err, {| config := config w; cluster := c;
             calls := calls w ++ [CreateRequest namespace deployment];
             logs := logs w |}).

(** [client.AppsV1beta1().Deployments(namespace).Delete(name, options)]. *)
Definition Deployments_Delete (client : Clientset) (namespace name : string)
    (options : metav1.DeleteOptions) : M (option error) :=
  fun w =>
    let '(err, c) := serveDelete client namespace name options (cluster w) in
    (err, {| config := config w; cluster := c;
             calls := calls w ++ [DeleteRequest namespace name options];
             logs := logs w |}).

(** [KubernetesVM].  [getClientFnc] returns a client or an error; what it
    does to get one (reading the configuration, asking the server for its
    version) is left open. *)
Record KubernetesVM := {
  id : string;
  getClientFnc : M (Clientset + error)
}.

(** [Deploy]. *)
Definition Deploy (vm : KubernetesVM) (ctxt : context_Context) (ccid : CCID)
    (args env : list string) (reader : io_Reader) : M (option error) :=
  ret None.

(** [stopInternal]. *)
Definition stopInternal (vm : KubernetesVM) (ctxt : context_Context) (client : Clientset)
    (id : string) (timeout : N) (dontkill dontremove : bool) : M (option error) :=
  let deletePolicy := metav1.DeletePropagationForeground in
  let* err := Deployments_Delete client apiv1.NamespaceDefault id
           {| metav1.PropagationPolicy := Some deletePolicy |} in
  match err with
  | Some e => Debugf "Delete deployment %s (%s)" [ArgString id; ArgError e]
  | None => Debugf "Deleted deployment %s" [ArgString id]
  end ;;
  ret err.

(** [Start]. *)
Definition Start (vm : KubernetesVM) (ctxt : context_Context) (ccid : CCID)
    (args env : list string) (builder : BuildSpecFactory)
    (prelaunchFunc : PrelaunchFunc) : M (option error) :=
  let* c := getClientFnc vm in
  match c with
  | inr err =>
      Debugf "start - cannot create client %s" [ArgError err] ;;
      ret (Some err)
  | inl client =>
      let '(deploymentID, err) := GetVMName ccid None in
      match err with
      | Some e => ret (Some e)
      | None =>
          Debugf "Cleanup deployment %s" [ArgString deploymentID] ;;
          stopInternal vm ctxt client deploymentID 0 false false ;;
          let* isSet := viper_IsSet "peer.kubernetes.namespace" in
          let* namespace := (if isSet : bool
                        then viper_GetString "peer.kubernetes.namespace"
                        else ret apiv1.NamespaceDefault) in
          let* runtimeImage := viper_GetString "chaincode.golang.runtime" in
          Debugf "Start deployment %s at namespace %d and runtime %s"
                 [ArgString deploymentID; ArgString namespace; ArgString runtimeImage] ;;
          let deploymentsClient := Deployments_Create client namespace in
          let deployment := startDeployment deploymentID in
          let* err := deploymentsClient deployment in
          match err with
          | Some e =>
              Errorf "start-could not create deployment <%s>, because of %s"
                     [ArgString deploymentID; ArgError e] ;;
              ret (Some e)
          | None =>
              Debugf "Started deployment %s" [ArgString deploymentID] ;;
              ret None
          end
      end
  end.

(** [Stop]. *)
Definition Stop (vm : KubernetesVM) (ctxt : context_Context) (ccid : CCID)
    (timeout : N) (dontkill dontremove : bool) : M (option error) :=
  let '(id, err) := GetVMName ccid None in
  match err with
  | Some e => ret (Some e)
  | None =>
      let* c := getClientFnc vm in
      match c with
      | inr err =>
          Debugf "stop - cannot create client %s" [ArgError err] ;;
          ret (Some err)
      | inl client =>
          let id := strings.Replace id ":" "_" in
          let* err := stopInternal vm ctxt client id timeout dontkill dontremove in
          ret err
      end
  end.

(** [Destroy]. *)
Definition Destroy (vm : KubernetesVM) (ctxt : context_Context) (ccid : CCID)
    (force noprune : bool) : M (option error) :=
  ret None.

End Controller.

Arguments Clientset : clear implicits.
Arguments World : clear implicits.
Arguments KubernetesVM : clear implicits.
Arguments M : clear implicits.

(** A cluster for examples: deployments kept by namespace and name, a create
    refused when the name is taken and a delete refused when it is not
    there, as the API server answers them. *)
Definition exampleClientset : Clientset (gmap (string * string) appsv1beta1.Deployment) :=
  {| serveCreate := fun namespace deployment c =>
       let name := metav1.Name (appsv1beta1.ObjectMeta deployment) in
       match c !! (namespace, name) with
       | Some _ => (Some (StatusError "AlreadyExists" name), c)
       | None => (None, <[(namespace, name) := deployment]> c)
       end;
     serveDelete := fun namespace name _ c =>
       match c !! (namespace, name) with
       | Some _ => (None, delete (namespace, name) c)
       | None => (Some (StatusError "NotFound" name), c)
       end |}.

(** A controller whose client is always there. *)
Definition exampleVM : KubernetesVM (gmap (string * string) appsv1beta1.Deployment) :=
  {| id := ""; getClientFnc := ret (inl exampleClientset) |}.

(** A world with the given configuration and an empty cluster. *)
Definition exampleWorld (cfg : gmap string string)
  : World (gmap (string * string) appsv1beta1.Deployment) :=
  {| config := cfg; cluster := ∅; calls := []; logs := [] |}.

(** The characters of the naming alphabet, [a-zA-Z0-9-_.]. *)
Definition vmAlphabet (c : ascii) : bool :=
  regexp.in_ranges (regexp.ranges vmRegExp) (byte_of c).

(** What the spec's words say of sanitization: every character, that is
    every rune of the name, is kept when it is in the alphabet and replaced
    by one [-] otherwise. *)
Definition sanitizeRune (r : Z) : ascii :=
  if regexp.in_ranges (regexp.ranges vmRegExp) r
  then ascii_of_N (Z.to_N r) else "-"%char.

Definition sanitize_spec (s : string) : string :=
  string_of_list_ascii (map sanitizeRune (utf8.runes s)).

(** Whether every byte of [s] is a character of the naming alphabet. *)
Definition allInAlphabet (s : string) : bool :=
  forallb vmAlphabet (list_ascii_of_string s).

(** The spec's grammar of resolved names, [[A-Za-z0-9\-_.]+]: at least one
    character, all of the alphabet. *)
Definition matchesNameGrammar (s : string) : bool :=
  negb (s =? "")%string && allInAlphabet s.

(** Whether the byte [c] occurs in [s]. *)
Definition containsByte (c : ascii) (s : string) : bool :=
  existsb (Ascii.eqb c) (list_ascii_of_string s).

(** The namespace [Start] creates the deployment in: the configured one when
    [peer.kubernetes.namespace] is set, [apiv1.NamespaceDefault] otherwise. *)
Definition startNamespace (cfg : gmap string string) : string :=
  if bool_decide (is_Some (cfg !! "peer.kubernetes.namespace"))
  then default "" (cfg !! "peer.kubernetes.namespace")
  else apiv1.NamespaceDefault.

(** What [GetVMName] makes of the name [name] it has after joining and
    formatting, in the spec's words: no error, the spec's sanitization of
    [name], hence only characters of the alphabet, as many as [name] has
    runes, and none exactly when [name] is empty, so that it matches the
    grammar of names exactly when [name] is not empty. *)
Definition sanitizedFrom (out : string * option error) (name : string) : Prop :=
  snd out = None
  /\ fst out = sanitize_spec name
  /\ allInAlphabet (fst out) = true
  /\ String.length (fst out) = List.length (utf8.runes name)
  /\ (fst out = "" <-> name = "")
  /\ (matchesNameGrammar (fst out) = true <-> name <> "").

(** The options [stopInternal] deletes with. *)
Definition foregroundDelete : metav1.DeleteOptions :=
  {| metav1.PropagationPolicy := Some metav1.DeletePropagationForeground |}.

(** A server on which a deployment deleted with the foreground policy
    stays visible: the delete is accepted, and the object is kept until its
    dependents are gone, which no call of the controller waits for.  A
    create under its name is refused meanwhile. *)
Definition lingeringClientset : Clientset (gmap (string * string) appsv1beta1.Deployment) :=
  {| serveCreate := serveCreate exampleClientset;
     serveDelete := fun namespace name _ c =>
       match c !! (namespace, name) with
       | Some _ => (None, c)
       | None => (Some (StatusError "NotFound" name), c)
       end |}.

Definition lingeringVM : KubernetesVM (gmap (string * string) appsv1beta1.Deployment) :=
  {| id := ""; getClientFnc := ret (inl lingeringClientset) |}.

(** A controller whose client constructor fails. *)
Definition brokenVM : KubernetesVM (gmap (string * string) appsv1beta1.Deployment) :=
  {| id := ""; getClientFnc := ret (inr (errorString "no kubeconfig")) |}.

(** The identity of the spec's examples. *)
Definition net1_peer1_mycc : CCID :=
  {| NetworkID := "net1"; PeerID := "peer1"; baseName := "mycc" |}.

(** ** [path/filepath]: [Join] and [Clean], as they are on Unix *)

Module filepath.

Definition Separator : ascii := "/"%char.

Definition IsPathSeparator (c : ascii) : bool := Ascii.eqb c Separator.

(** The bytes of a path element: [path] up to its first separator. *)
Fixpoint element (path : string) : string :=
  match path with
  | EmptyString => EmptyString
  | String c t => if IsPathSeparator c then EmptyString else String c (element t)
  end.

(** [path] from its first separator on. *)
Fixpoint afterElement (path : string) : string :=
  match path with
  | EmptyString => EmptyString
  | String c t => if IsPathSeparator c then path else afterElement t
  end.

(** What [Clean] does of its buffer at a [..] element it can back over:
    [out.w--], then again while [out.w > dotdot] and the byte at [out.w] is
    no separator.  The buffer is kept newest byte first. *)
Fixpoint backtrack (dotdot : nat) (out : list ascii) : list ascii :=
  match out with
  | [] => []
  | c :: out' =>
      if (List.length out' <=? dotdot)%nat || IsPathSeparator c then out'
      else backtrack dotdot out'
  end.

(** The loop of [Clean] over what is left of the path, with the buffer
    [out] (newest byte first) and the index [dotdot] where a [..] must
    stop.  Each turn consumes at least one byte of the path. *)
Fixpoint cleanLoop (fuel : nat) (rooted : bool) (path : string)
    (out : list ascii) (dotdot : nat) : list ascii :=
  match fuel with
  | O => out
  | S fuel' =>
      match path with
      | EmptyString => out
      | String c0 t0 =>
          if IsPathSeparator c0 then
            cleanLoop fuel' rooted t0 out dotdot
          else if Ascii.eqb c0 "."
                  && match t0 with
                     | EmptyString => true
                     | String c1 _ => IsPathSeparator c1
                     end then
            cleanLoop fuel' rooted t0 out dotdot
          else if Ascii.eqb c0 "."
                  && match t0 with
                     | String c1 EmptyString => Ascii.eqb c1 "."
                     | String c1 (String c2 _) => Ascii.eqb c1 "." && IsPathSeparator c2
                     | EmptyString => false
                     end then
            let rest := slice_from 1 t0 in
            if (dotdot <? List.length out)%nat then
              cleanLoop fuel' rooted rest (backtrack dotdot out) dotdot
            else if negb rooted then
              let out1 := if (0 <? List.length out)%nat then Separator :: out else out in
              let out2 := "."%char :: "."%char :: out1 in
              cleanLoop fuel' rooted rest out2 (List.length out2)
            else
              cleanLoop fuel' rooted rest out dotdot
          else
            let out1 :=
              if rooted && negb (List.length out =? 1)%nat
                 || negb rooted && negb (List.length out =? 0)%nat
              then Separator :: out else out in
            cleanLoop fuel' rooted (afterElement path)
              (rev (list_ascii_of_string (element path)) ++ out1)%list dotdot
      end
  end.

(** [filepath.Clean]. *)
Definition Clean (path : string) : string :=
  match path with
  | EmptyString => "."
  | String c0 t0 =>
      let rooted := IsPathSeparator c0 in
      let out :=
        if rooted
        then cleanLoop (String.length path) rooted t0 [Separator] 1
        else cleanLoop (String.length path) rooted path [] 0 in
      if (List.length out =? 0)%nat then "."
      else string_of_list_ascii (rev out)
  end.

(** [strings.Join(elem, sep)]. *)
Fixpoint strings_Join (elem : list string) (sep : string) : string :=
  match elem with
  | [] => EmptyString
  | [e] => e
  | e :: rest => e ++ sep ++ strings_Join rest sep
  end.

(** [filepath.Join]: the elements from the first non-empty one on, joined
    by the separator and cleaned; the empty string when there is none. *)
Fixpoint Join (elem : list string) : string :=
  match elem with
  | [] => EmptyString
  | e :: rest =>
      if (e =? "")%string then Join rest
      else Clean (strings_Join elem (String Separator EmptyString))
  end.

End filepath.

(** ** The client-go types the client constructor handles *)

Module rest.

(** [rest.Config]: the fields the constructor reads or writes, and all the
    others (TLS, credentials, ...) as one value of an open type.  [QPS] is a
    [float32] in Go; the one value written to it here is the constant
    [1e6], a whole number that [float32] holds exactly. *)
Record Config (Other : Type) := {
  Host : string;
  QPS : Z;
  Burst : Z;
  ContentType : string;
  other : Other
}.

Arguments Host {Other} _.
Arguments QPS {Other} _.
Arguments Burst {Other} _.
Arguments ContentType {Other} _.
Arguments other {Other} _.

End rest.

Module version.

(** [version.Info], what the server answers to the version query. *)
Record Info := {
  Major : string;
  Minor : string;
  GitVersion : string;
  GitCommit : string;
  GitTreeState : string;
  BuildDate : string;
  GoVersion : string;
  Compiler : string;
  Platform : string
}.

End version.

(** A call of [glog.Infof]: the format string and the arguments, not
    rendered. *)
Record GlogLine := {
  glog_format : string;
  glog_args : list LogArg
}.

(** ** [core/container/util]: the client constructor *)

Definition defaultQPS : Z := 10 ^ 6.
Definition defaultBurst : Z := 10 ^ 6.
Definition fakeCertificate : string := "default-fake-certificate".

Section Util.

Context {Cluster RestOther : Type}.

(** What the constructor gets from outside the repository: the [HOME]
    variable of the process ([homedir.HomeDir] on Unix), the configuration
    found inside a cluster ([rest.InClusterConfig]), the configuration
    loaded from a kubeconfig path with a server override (the
    [ClientConfig] of [clientcmd]'s deferred loader), the client built from
    a configuration ([kubernetes.NewForConfig]), and how the server behind
    a client answers the version query.  Nothing is assumed of them. *)
Record Platform := {
  Getenv_HOME : string;
  InClusterConfig : rest.Config RestOther + error;
  ClientConfig : string -> string -> rest.Config RestOther + error;
  NewForConfig : rest.Config RestOther -> Clientset Cluster + error;
  serveVersion : Clientset Cluster -> Cluster -> (version.Info + error) * Cluster
}.

Notation "'let*' x ':=' m 'in' k" := (bind m (fun x => k))
  (at level 10, x name, m at level 100, k at level 200).

(** [homedir.HomeDir()]. *)
Definition homedir_HomeDir (p : Platform) : string := Getenv_HOME p.

(** [client.Discovery().ServerVersion()]: a call on the server, which is
    not one on the deployments interface. *)
Definition Discovery_ServerVersion (p : Platform) (client : Clientset Cluster)
  : M Cluster (version.Info + error) :=
  fun w =>
    let '(v, c) := serveVersion p client (cluster w) in
    (v, {| config := config w; cluster := c; calls := calls w; logs := logs w |}).

(** [buildConfigFromFlags]. *)
Definition buildConfigFromFlags (p : Platform) (masterURL kubeconfigPath : string)
  : rest.Config RestOther + error :=
  if (kubeconfigPath =? "")%string && (masterURL =? "")%string then
    match InClusterConfig p with
    | inr err => inr err
    | inl kubeconfig => inl kubeconfig
    end
  else ClientConfig p kubeconfigPath masterURL.

(** The kubeconfig path [NewKubernetesClient] settles on: the configured
    one, or [.kube/config] under the home directory when none is configured
    and there is a home directory. *)
Definition kubeConfigPath (p : Platform) (kubeConfig : string) : string :=
  if (kubeConfig =? "")%string then
    let home := homedir_HomeDir p in
    if negb (home =? "")%string
    then filepath.Join [home; ".kube"; "config"]
    else kubeConfig
  else kubeConfig.

(** The three assignments [NewKubernetesClient] makes to the loaded
    configuration: [cfg.QPS = defaultQPS], [cfg.Burst = defaultBurst] and
    [cfg.ContentType = "application/vnd.kubernetes.protobuf"]. *)
Definition withClientSettings (cfg : rest.Config RestOther) : rest.Config RestOther :=
  {| rest.Host := rest.Host cfg;
     rest.QPS := defaultQPS;
     rest.Burst := defaultBurst;
     rest.ContentType := "application/vnd.kubernetes.protobuf";
     rest.other := rest.other cfg |}.

(** The two lines [NewKubernetesClient] writes with [glog.Infof]. *)
Definition creatingLine (cfg : rest.Config RestOther) : GlogLine :=
  {| glog_format := "Creating API client for %s";
     glog_args := [ArgString (rest.Host cfg)] |}.

Definition runningLine (v : version.Info) : GlogLine :=
  {| glog_format := "Running in Kubernetes Cluster version v%v.%v (%v) - git (%v) commit %v - platform %v";
     glog_args := [ ArgString (version.Major v); ArgString (version.Minor v);
                    ArgString (version.GitVersion v); ArgString (version.GitTreeState v);
                    ArgString (version.GitCommit v); ArgString (version.Platform v) ] |}.

(** [NewKubernetesClient].  The lines written with [glog], whose sink is
    not part of the world of the controller, are returned beside the
    result. *)
Definition NewKubernetesClient (p : Platform)
  : M Cluster (list GlogLine * (Clientset Cluster + error)) :=
  let* apiserverHost := viper_GetString "peer.kubernetes.endpoint" in
  let* kubeConfig := viper_GetString "peer.kubernetes.kubeconfig" in
  let kubeConfig := kubeConfigPath p kubeConfig in
  match buildConfigFromFlags p apiserverHost kubeConfig with
  | inr err => ret ([], inr err)
  | inl cfg =>
      let cfg := withClientSettings cfg in
      let creating := creatingLine cfg in
      match NewForConfig p cfg with
      | inr err => ret ([creating], inr err)
      | inl client =>
          let* v := Discovery_ServerVersion p client in
          match v with
          | inr err => ret ([creating], inr err)
          | inl v => ret ([creating; runningLine v], inl client)
          end
      end
  end.

(** [getKubernetesClient]. *)
Definition getKubernetesClient (p : Platform) : M Cluster (Clientset Cluster + error) :=
  let* r := NewKubernetesClient p in
  ret (snd r).

(** [NewKubernetesVM]. *)
Definition NewKubernetesVM (p : Platform) : KubernetesVM Cluster :=
  {| id := ""; getClientFnc := getKubernetesClient p |}.

End Util.

Arguments Platform : clear implicits.

(** A platform for examples: a home directory with a kubeconfig that names
    a server, no in-cluster configuration, and the example cluster behind
    the client. *)
Definition examplePlatform
  : Platform (gmap (string * string) appsv1beta1.Deployment) unit :=
  {| Getenv_HOME := "/root";
     InClusterConfig := inr (errorString "not running in a cluster");
     ClientConfig := fun path server =>
       if (path =? "/root/.kube/config")%string
       then inl {| rest.Host := if (server =? "")%string then "https://10.0.0.1:6443" else server;
                   rest.QPS := 5; rest.Burst := 10; rest.ContentType := "";
                   rest.other := tt |}
       else inr (errorString "no such file");
     NewForConfig := fun _ => inl exampleClientset;
     serveVersion := fun _ c =>
       (inl {| version.Major := "1"; version.Minor := "8";
               version.GitVersion := "v1.8.0"; version.GitCommit := "6e93783";
               version.GitTreeState := "clean"; version.BuildDate := "";
               version.GoVersion := "go1.8.3"; version.Compiler := "gc";
               version.Platform := "linux/amd64" |}, c) |}.

(** The same platform with a server that does not answer. *)
Definition unreachablePlatform
  : Platform (gmap (string * string) appsv1beta1.Deployment) unit :=
  {| Getenv_HOME := Getenv_HOME examplePlatform;
     InClusterConfig := InClusterConfig examplePlatform;
     ClientConfig := ClientConfig examplePlatform;
     NewForConfig := NewForConfig examplePlatform;
     serveVersion := fun _ c => (inr (errorString "connection refused"), c) |}.




(** ** The second revision of [Start] *)

(** The second revision of the controller in the source file differs from
    the first in [Start]: it takes the files to upload as one more argument,
    and it creates a deployment of two replicas with an init container and
    a container whose images are read from the configuration.  That
    deployment has init containers, which the pod specification above has
    no place for; so the revision comes with its own API types, requests,
    client and world, made as the first ones are.  [GetVMName] is the same
    function in both revisions. *)
Module rev2.

Record PodSpec := {
  InitContainers : list apiv1.Container;
  Containers : list apiv1.Container
}.

Record PodTemplateSpec := {
  Template_ObjectMeta : metav1.ObjectMeta;
  Template_Spec : PodSpec
}.

Record DeploymentSpec := {
  Replicas : option Z;
  Template : PodTemplateSpec
}.

Record Deployment := {
  ObjectMeta : metav1.ObjectMeta;
  Spec : DeploymentSpec
}.

Inductive Request : Type :=
| CreateRequest (namespace : string) (deployment : Deployment)
| DeleteRequest (namespace name : string) (options : metav1.DeleteOptions).

(** The deployment [Start] creates in this revision. *)
Definition startDeployment (deploymentID builderImage runtimeImage : string) : Deployment :=
  {| ObjectMeta := {| metav1.Name := deploymentID; metav1.Labels := ∅ |};
     Spec :=
       {| Replicas := int32Ptr 2;
          Template :=
            {| Template_ObjectMeta :=
                 {| metav1.Name := ""; metav1.Labels := <["app" := "demo"]> ∅ |};
               Template_Spec :=
                 {| InitContainers :=
                      [ {| apiv1.Container_Name := "builder"; apiv1.Image := builderImage;
                           apiv1.Command := []; apiv1.Env := [] |} ];
                    Containers :=
                      [ {| apiv1.Container_Name := "runtime"; apiv1.Image := runtimeImage;
                           apiv1.Command := []; apiv1.Env := [] |} ] |} |} |} |}.

Section Controller.

Context {Cluster : Type}.
Context {context_Context BuildSpecFactory PrelaunchFunc : Type}.

Record Clientset := {
  serveCreate : string -> Deployment -> Cluster -> option error * Cluster;
  serveDelete : string -> string -> metav1.DeleteOptions -> Cluster -> option error * Cluster
}.

Record World := {
  config : gmap string string;
  cluster : Cluster;
  calls : list Request;
  logs : list LogRecord
}.

Definition M (A : Type) : Type := World -> A * World.

Definition ret {A} (a : A) : M A := fun w => (a, w).

Definition bind {A B} (m : M A) (k : A -> M B) : M B :=
  fun w => let '(a, w') := m w in k a w'.

Notation "'let*' x ':=' m 'in' k" := (bind m (fun x => k))
  (at level 10, x name, m at level 100, k at level 200).
Notation "m ';;' k" := (bind m (fun _ => k))
  (at level 100, k at level 200, right associativity).

Definition viper_IsSet (key : string) : M bool :=
  fun w => (bool_decide (is_Some (config w !! key)), w).

Definition viper_GetString (key : string) : M string :=
  fun w => (default "" (config w !! key), w).

Definition logf (l : LogLevel) (fmt : string) (a : list LogArg) : M unit :=
  fun w => (tt, {| config := config w; cluster := cluster w; calls := calls w;
                   logs := logs w ++ [ {| level := l; format := fmt; args := a |} ] |}).

Definition Debugf := logf DEBUG.
Definition Errorf := logf ERROR.

Definition Deployments_Create (client : Clientset) (namespace : string)
    (deployment : Deployment) : M (option error) :=
  fun w =>
    let '(err, c) := serveCreate client namespace deployment (cluster w) in
    (err, {| config := config w; cluster := c;
             calls := calls w ++ [CreateRequest namespace deployment];
             logs := logs w |}).

Definition Deployments_Delete (client : Clientset) (namespace name : string)
    (options : metav1.DeleteOptions) : M (option error) :=
  fun w =>
    let '(err, c) := serveDelete client namespace name options (cluster w) in
    (err, {| config := config w; cluster := c;
             calls := calls w ++ [DeleteRequest namespace name options];
             logs := logs w |}).

Record KubernetesVM := {
  id : string;
  getClientFnc : M (Clientset + error)
}.

(** [stopInternal], as in the first revision. *)
Definition stopInternal (vm : KubernetesVM) (ctxt : context_Context) (client : Clientset)
    (id : string) (timeout : N) (dontkill dontremove : bool) : M (option error) :=
  let deletePolicy := metav1.DeletePropagationForeground in
  let* err := Deployments_Delete client apiv1.NamespaceDefault id
                {| metav1.PropagationPolicy := Some deletePolicy |} in
  match err with
  | Some e => Debugf "Delete deployment %s (%s)" [ArgString id; ArgError e]
  | None => Debugf "Deleted deployment %s" [ArgString id]
  end ;;
  ret err.

(** [Start], second revision. *)
Definition Start (vm : KubernetesVM) (ctxt : context_Context) (ccid : CCID)
    (args env : list string) (filesToUpload : gmap string string)
    (builder : BuildSpecFactory) (prelaunchFunc : PrelaunchFunc) : M (option error) :=
  let* c := getClientFnc vm in
  match c with
  | inr err =>
      Debugf "start - cannot create client %s" [ArgError err] ;;
      ret (Some err)
  | inl client =>
      let '(deploymentID, err) := GetVMName ccid None in
      match err with
      | Some e => ret (Some e)
      | None =>
          Debugf "Cleanup deployment %s" [ArgString deploymentID] ;;
          stopInternal vm ctxt client deploymentID 0 false false ;;
          let* isSet := viper_IsSet "peer.kubernetes.namespace" in
          let* namespace := (if isSet : bool
                             then viper_GetString "peer.kubernetes.namespace"
                             else ret apiv1.NamespaceDefault) in
          let* builderImage := viper_GetString "chaincode.builder" in
          let* runtimeImage := viper_GetString "chaincode.golang.runtime" in
          Debugf "Start deployment %s at namespace %d using builder %s and runtime %s"
                 [ArgString deploymentID; ArgString namespace;
                  ArgString builderImage; ArgString runtimeImage] ;;
          let deploymentsClient := Deployments_Create client namespace in
          let deployment := startDeployment deploymentID builderImage runtimeImage in
          let* err := deploymentsClient deployment in
          match err with
          | Some e =>
              Errorf "start-could not create deployment <%s>, because of %s"
                     [ArgString deploymentID; ArgError e] ;;
              ret (Some e)
          | None =>
              Debugf "Started deployment %s" [ArgString deploymentID] ;;
              ret None
          end
      end
  end.

End Controller.

Arguments Clientset : clear implicits.
Arguments World : clear implicits.
Arguments KubernetesVM : clear implicits.
Arguments M : clear implicits.

(** A client for examples, before a server that accepts every call. *)
Definition exampleVM : KubernetesVM unit :=
  {| id := "";
     getClientFnc :=
       ret (inl {| serveCreate := fun _ _ c => (None, c);
                   serveDelete := fun _ _ _ c => (None, c) |}) |}.

End rev2.

(** * Properties *)

(** ** The naming function at work *)

Example GetVMName_net1 :
  GetVMName net1_peer1_mycc None = ("net1-peer1-mycc", None).
Proof. vm_compute. reflexivity. Qed.

Example GetVMName_mycc :
  GetVMName {| NetworkID := ""; PeerID := ""; baseName := "my cc!" |} None
  = ("my-cc-", None).
Proof. vm_compute. reflexivity. Qed.

(** A character of two bytes, here U+00E9 as [0xC3 0xA9], is one rune and
    becomes one [-]; a colon becomes a [-] as well. *)
Example GetVMName_two_byte_rune :
  GetVMName {| NetworkID := ""; PeerID := "p";
               baseName := "caf" ++ String (ascii_of_nat 195) (String (ascii_of_nat 169) ":1") |}
    None
  = ("p-caf--1", None).
Proof. vm_compute. reflexivity. Qed.

(** A byte that starts no valid encoding is a rune of its own. *)
Example GetVMName_stray_bytes :
  GetVMName {| NetworkID := ""; PeerID := "";
               baseName := String (ascii_of_nat 169) (String (ascii_of_nat 195) "x") |}
    None
  = ("--x", None).
Proof. vm_compute. reflexivity. Qed.

Example Replace_colons : strings.Replace "mycc:1.0:a" ":" "_" = "mycc_1.0_a".
Proof. vm_compute. reflexivity. Qed.


(** ** Bytes, slices and bit operations *)

Lemma byte_of_range (c : ascii) : 0 <= byte_of c < 256.
Proof.
  unfold byte_of. pose proof (N_ascii_bounded c). lia.
Qed.

Lemma ascii_of_byte_of (c : ascii) : ascii_of_N (Z.to_N (byte_of c)) = c.
Proof.
  unfold byte_of. rewrite N2Z.id. apply ascii_N_embedding.
Qed.

Lemma length_slice_from (n : nat) (s : string) :
  String.length (slice_from n s) = (String.length s - n)%nat.
Proof.
  revert s. induction n as [|n IH]; intros [|c t]; simpl; auto with arith.
Qed.

Lemma land_le_r (a b : Z) : 0 <= a -> 0 <= b -> Z.land a b <= b.
Proof.
  intros Ha Hb.
  pose proof (Z.add_lor_land (Z.ldiff b a) (Z.land b a)) as E.
  rewrite Z.lor_ldiff_and in E.
  assert (Z.land (Z.ldiff b a) (Z.land b a) = 0) as E0.
  { rewrite (Z.land_comm b a), Z.land_assoc, Z.land_ldiff, Z.land_0_l. reflexivity. }
  rewrite E0 in E.
  assert (0 <= Z.ldiff b a) by (apply Z.ldiff_nonneg; lia).
  rewrite (Z.land_comm a b). lia.
Qed.

Lemma lor_ge_l (m a b : Z) : 0 <= a -> 0 <= b -> m <= a -> m <= Z.lor a b.
Proof.
  intros Ha Hb Hm.
  pose proof (Z.add_lor_land a b). pose proof (land_le_r a b Ha Hb). lia.
Qed.

Lemma lor_ge_r (m a b : Z) : 0 <= a -> 0 <= b -> m <= b -> m <= Z.lor a b.
Proof.
  intros Ha Hb Hm. rewrite Z.lor_comm. apply lor_ge_l; assumption.
Qed.

Lemma land_mask_range (b k : Z) : 0 <= k -> 0 <= Z.land b (Z.ones k) < 2 ^ k.
Proof.
  intros Hk. rewrite Z.land_ones by assumption.
  apply Z.mod_pos_bound. apply Z.pow_pos_nonneg; lia.
Qed.

(** ** The decoder *)

Lemma byte_at_0 (c : ascii) (t : string) : byte_at (String c t) 0 = byte_of c.
Proof. reflexivity. Qed.

(** A byte below [RuneSelf] is a rune of its own. *)
Lemma decode_ascii (c : ascii) (t : string) :
  byte_of c < 128 ->
  utf8.DecodeRuneInString (String c t) = (byte_of c, 1%nat).
Proof.
  intros H. unfold utf8.DecodeRuneInString.
  cbn [String.length Nat.ltb Nat.leb]. rewrite byte_at_0.
  unfold utf8.first.
  destruct (Z.ltb_spec (byte_of c) 128); [|lia].
  change (utf8.as_ <=? utf8.as_) with true. cbv iota.
  change (Z.shiftr (utf8.int32 (Z.shiftl utf8.as_ 31)) 31) with 0.
  change (Z.lnot 0) with (-1).
  rewrite Z.land_m1_r, Z.land_0_r, Z.lor_0_r. reflexivity.
Qed.

Ltac closed_first x :=
  let n := eval vm_compute in (Z.to_nat (Z.land x 7)) in
  change (Z.to_nat (Z.land x 7)) with n;
  let a := eval vm_compute in (utf8.acceptRanges (Z.shiftr x 4)) in
  change (utf8.acceptRanges (Z.shiftr x 4)) with a;
  let b := eval vm_compute in (utf8.as_ <=? x) in
  change (utf8.as_ <=? x) with b;
  cbv iota; cbn [fst snd Nat.ltb Nat.leb].

Ltac masks_to_arith :=
  change utf8.maskx with (Z.ones 6) in *; change utf8.mask2 with (Z.ones 5) in *;
  change utf8.mask3 with (Z.ones 4) in *; change utf8.mask4 with (Z.ones 3) in *;
  rewrite ?Z.land_ones, ?Z.shiftl_mul_pow2 in * by lia;
  change (2 ^ 3) with 8 in *; change (2 ^ 4) with 16 in *;
  change (2 ^ 5) with 32 in *; change (2 ^ 6) with 64 in *;
  change (2 ^ 12) with 4096 in *; change (2 ^ 18) with 262144 in *.

Ltac mod_arith := Z.div_mod_to_equations; lia.

Ltac lor_nonneg := first [ mod_arith | apply Z.lor_nonneg; split; lor_nonneg ].

Ltac lor_ge :=
  first
    [ mod_arith
    | apply lor_ge_l; [ lor_nonneg | lor_nonneg | lor_ge ]
    | apply lor_ge_r; [ lor_nonneg | lor_nonneg | lor_ge ] ].

(** A byte from [RuneSelf] on starts a rune that is not ASCII: either the
    rune of a well-formed encoding of two to four bytes, or [RuneError] of
    width 1. *)
Lemma decode_high (c : ascii) (t : string) :
  128 <= byte_of c ->
  exists r w, utf8.DecodeRuneInString (String c t) = (r, w)
              /\ 128 <= r /\ (1 <= w <= S (String.length t))%nat.
Proof.
  intros H. pose proof (byte_of_range c) as Hc.
  unfold utf8.DecodeRuneInString.
  cbn [String.length Nat.ltb Nat.leb]. rewrite byte_at_0.
  generalize (byte_at (String c t) 1) (byte_at (String c t) 2) (byte_at (String c t) 3).
  intros b1 b2 b3.
  revert H Hc. generalize (byte_of c). intros b0 H Hc.
  unfold utf8.first.
  repeat match goal with
         | |- context [b0 <? ?k] => destruct (Z.ltb_spec b0 k)
         | |- context [b0 =? ?k] => destruct (Z.eqb_spec b0 k)
         end; try lia.
  all: match goal with |- context [utf8.as_ <=? ?x] => closed_first x end.
  all: repeat match goal with
         | |- context [if ?b then _ else _] => destruct b eqn:?
         end.
  all: eexists _, _; split; [reflexivity|].
  all: (split;
        [ | repeat match goal with
                   | H : (_ <=? _)%nat = false |- _ => apply Nat.leb_gt in H
                   end; lia ]).
  all: try (vm_compute; discriminate).
  all: repeat match goal with
         | H : _ || _ = false |- _ => apply orb_false_elim in H as [? ?]
         | H : (_ <? _) = false |- _ => apply Z.ltb_ge in H
         end.
  all: try (change (Z.shiftr (utf8.int32 (Z.shiftl utf8.xx 31)) 31) with (-1);
            change (Z.lnot (-1)) with 0;
            rewrite Z.land_0_r, Z.land_m1_r, Z.lor_0_l; vm_compute; discriminate).
  all: unfold utf8.locb, utf8.hicb in *; masks_to_arith.
  all: lor_ge.
Qed.

(** Every step of the decoder over a non-empty string consumes between one
    byte and the whole string. *)
Lemma decode_width (c : ascii) (t : string) :
  (1 <= snd (utf8.DecodeRuneInString (String c t)) <= S (String.length t))%nat.
Proof.
  destruct (Z.lt_ge_cases (byte_of c) 128) as [H|H].
  - rewrite decode_ascii by assumption. simpl. lia.
  - destruct (decode_high c t H) as (r & w & -> & _ & Hw). exact Hw.
Qed.

(** ** The naming alphabet *)

Lemma in_alphabet_ascii (r : Z) :
  regexp.in_ranges (regexp.ranges vmRegExp) r = true -> 0 <= r < 128.
Proof.
  unfold regexp.in_ranges, vmRegExp. cbn [regexp.ranges existsb fst snd].
  change (byte_of "a") with 97. change (byte_of "z") with 122.
  change (byte_of "A") with 65. change (byte_of "Z") with 90.
  change (byte_of "0") with 48. change (byte_of "9") with 57.
  change (byte_of "-") with 45. change (byte_of "_") with 95.
  change (byte_of ".") with 46.
  rewrite !orb_true_iff, !andb_true_iff, !Z.leb_le. lia.
Qed.

Lemma matchRune_vmRegExp (r : Z) :
  regexp.matchRune vmRegExp r = negb (regexp.in_ranges (regexp.ranges vmRegExp) r).
Proof. reflexivity. Qed.

(** One turn of the replacement loop at a character of the alphabet: it is
    copied. *)
Lemma replaceAll_keep (fuel : nat) (c : ascii) (t : string) :
  vmAlphabet c = true ->
  regexp.replaceAll vmRegExp "-" (S fuel) (String c t)
  = String c (regexp.replaceAll vmRegExp "-" fuel t).
Proof.
  intros Hc. pose proof (in_alphabet_ascii _ Hc) as Hr.
  cbn [regexp.replaceAll]. rewrite decode_ascii by lia.
  rewrite matchRune_vmRegExp. unfold vmAlphabet in Hc. rewrite Hc.
  reflexivity.
Qed.

(** One turn of the loop at any other character: the whole rune that starts
    there becomes one [-]. *)
Lemma replaceAll_subst (fuel : nat) (c : ascii) (t : string) :
  vmAlphabet c = false ->
  exists r w,
    utf8.DecodeRuneInString (String c t) = (r, w)
    /\ regexp.in_ranges (regexp.ranges vmRegExp) r = false
    /\ (1 <= w <= S (String.length t))%nat
    /\ regexp.replaceAll vmRegExp "-" (S fuel) (String c t)
       = String "-" (regexp.replaceAll vmRegExp "-" fuel (slice_from w (String c t))).
Proof.
  intros Hc.
  assert (exists r w, utf8.DecodeRuneInString (String c t) = (r, w)
            /\ regexp.in_ranges (regexp.ranges vmRegExp) r = false
            /\ (1 <= w <= S (String.length t))%nat) as (r & w & E & Hr & Hw).
  { destruct (Z.lt_ge_cases (byte_of c) 128) as [H|H].
    - exists (byte_of c), 1%nat. rewrite decode_ascii by assumption.
      repeat split; [exact Hc | lia | lia].
    - destruct (decode_high c t H) as (r & w & E & Hr & Hw).
      exists r, w. repeat split; try assumption; try lia.
      destruct (regexp.in_ranges (regexp.ranges vmRegExp) r) eqn:Hin; [|reflexivity].
      apply in_alphabet_ascii in Hin. lia. }
  exists r, w. repeat split; try assumption; try lia.
  cbn [regexp.replaceAll]. rewrite E, matchRune_vmRegExp, Hr. reflexivity.
Qed.

(** ** The replacement loop *)

(** The replacement writes only characters of the alphabet. *)
Lemma replaceAll_alphabet (fuel : nat) (s : string) :
  allInAlphabet (regexp.replaceAll vmRegExp "-" fuel s) = true.
Proof.
  revert s. induction fuel as [|fuel IH]; intros s; [reflexivity|].
  destruct s as [|c t]; [reflexivity|].
  destruct (vmAlphabet c) eqn:Hc.
  - rewrite replaceAll_keep by assumption.
    unfold allInAlphabet in *. cbn [list_ascii_of_string forallb].
    rewrite Hc, IH. reflexivity.
  - destruct (replaceAll_subst fuel c t Hc) as (r & w & _ & _ & _ & ->).
    unfold allInAlphabet in *. cbn [list_ascii_of_string forallb].
    rewrite IH. reflexivity.
Qed.

(** Over a string of the alphabet the replacement changes nothing. *)
Lemma replaceAll_fixed (s : string) (fuel : nat) :
  allInAlphabet s = true ->
  (String.length s <= fuel)%nat ->
  regexp.replaceAll vmRegExp "-" fuel s = s.
Proof.
  revert fuel. induction s as [|c t IH]; intros fuel Hs Hf.
  - destruct fuel; reflexivity.
  - destruct fuel as [|fuel]; [simpl in Hf; lia|].
    unfold allInAlphabet in Hs. cbn [list_ascii_of_string forallb] in Hs.
    apply andb_true_iff in Hs as [Hc Ht].
    rewrite replaceAll_keep by assumption.
    rewrite IH; [reflexivity | exact Ht | simpl in Hf; lia].
Qed.

(** The loop computes the spec's sanitization, rune by rune, whenever it is
    given the steps to reach the end of the string. *)
Lemma replaceAll_runes (fuel : nat) (s : string) :
  (String.length s <= fuel)%nat ->
  regexp.replaceAll vmRegExp "-" fuel s
  = string_of_list_ascii (map sanitizeRune (utf8.runes_from fuel s)).
Proof.
  revert s. induction fuel as [|fuel IH]; intros s Hf.
  - destruct s; [reflexivity | simpl in Hf; lia].
  - destruct s as [|c t]; [reflexivity|].
    simpl in Hf.
    destruct (vmAlphabet c) eqn:Hc.
    + rewrite replaceAll_keep by assumption.
      pose proof (in_alphabet_ascii _ Hc) as Hr.
      cbn [utf8.runes_from]. rewrite decode_ascii by lia.
      cbn [slice_from map string_of_list_ascii].
      rewrite <- IH by lia. unfold sanitizeRune.
      unfold vmAlphabet in Hc. rewrite Hc, ascii_of_byte_of. reflexivity.
    + destruct (replaceAll_subst fuel c t Hc) as (r & w & E & Hr & Hw & ->).
      cbn [utf8.runes_from]. rewrite E.
      cbn [map string_of_list_ascii].
      rewrite <- IH by (rewrite length_slice_from; simpl; lia).
      unfold sanitizeRune. rewrite Hr. reflexivity.
Qed.

(** The number of steps does not matter once it reaches the length of the
    string: the loop has stopped by then, and so has the decoding into
    runes. *)
Lemma replaceAll_enough_fuel (fuel fuel' : nat) (s : string) :
  (String.length s <= fuel)%nat ->
  (String.length s <= fuel')%nat ->
  regexp.replaceAll vmRegExp "-" fuel s = regexp.replaceAll vmRegExp "-" fuel' s.
Proof.
  revert fuel' s. induction fuel as [|fuel IH]; intros fuel' s Hf Hf'.
  - destruct s; [destruct fuel'; reflexivity | simpl in Hf; lia].
  - destruct s as [|c t]; [destruct fuel'; reflexivity|].
    simpl in Hf, Hf'. destruct fuel' as [|fuel']; [lia|].
    destruct (vmAlphabet c) eqn:Hc.
    + rewrite !replaceAll_keep by assumption.
      rewrite (IH fuel') by lia. reflexivity.
    + destruct (replaceAll_subst fuel c t Hc) as (r & w & E & _ & Hw & ->).
      destruct (replaceAll_subst fuel' c t Hc) as (r' & w' & E' & _ & _ & ->).
      rewrite E in E'. injection E' as <- <-.
      rewrite (IH fuel') by (rewrite length_slice_from; simpl; lia).
      reflexivity.
Qed.

Lemma runes_from_enough_fuel (fuel fuel' : nat) (s : string) :
  (String.length s <= fuel)%nat ->
  (String.length s <= fuel')%nat ->
  utf8.runes_from fuel s = utf8.runes_from fuel' s.
Proof.
  revert fuel' s. induction fuel as [|fuel IH]; intros fuel' s Hf Hf'.
  - destruct s; [destruct fuel'; reflexivity | simpl in Hf; lia].
  - destruct s as [|c t]; [destruct fuel'; reflexivity|].
    simpl in Hf, Hf'. destruct fuel' as [|fuel']; [lia|].
    cbn [utf8.runes_from].
    pose proof (decode_width c t) as Hw.
    destruct (utf8.DecodeRuneInString (String c t)) as [r w]. simpl in Hw.
    rewrite (IH fuel') by (rewrite length_slice_from; simpl; lia).
    reflexivity.
Qed.

Lemma ReplaceAllString_spec (s : string) :
  regexp.ReplaceAllString vmRegExp s "-" = sanitize_spec s.
Proof.
  unfold regexp.ReplaceAllString, sanitize_spec, utf8.runes.
  apply replaceAll_runes. lia.
Qed.

Lemma ReplaceAllString_alphabet (s : string) :
  allInAlphabet (regexp.ReplaceAllString vmRegExp s "-") = true.
Proof. apply replaceAll_alphabet. Qed.

Lemma ReplaceAllString_fixed (s : string) :
  allInAlphabet s = true -> regexp.ReplaceAllString vmRegExp s "-" = s.
Proof. intros H. apply replaceAll_fixed; [exact H | lia]. Qed.

Lemma ReplaceAllString_idempotent (s : string) :
  regexp.ReplaceAllString vmRegExp (regexp.ReplaceAllString vmRegExp s "-") "-"
  = regexp.ReplaceAllString vmRegExp s "-".
Proof. apply ReplaceAllString_fixed, ReplaceAllString_alphabet. Qed.

Lemma length_string_of_list_ascii (l : list ascii) :
  String.length (string_of_list_ascii l) = List.length l.
Proof. induction l; simpl; congruence. Qed.

Lemma ReplaceAllString_length (s : string) :
  String.length (regexp.ReplaceAllString vmRegExp s "-") = List.length (utf8.runes s).
Proof.
  rewrite ReplaceAllString_spec. unfold sanitize_spec.
  rewrite length_string_of_list_ascii, length_map. reflexivity.
Qed.

Lemma runes_nil (s : string) : utf8.runes s = [] <-> s = "".
Proof.
  destruct s as [|c t]; [split; reflexivity|].
  unfold utf8.runes. cbn [String.length utf8.runes_from].
  destruct (utf8.DecodeRuneInString (String c t)). split; discriminate.
Qed.

Lemma ReplaceAllString_empty (s : string) :
  regexp.ReplaceAllString vmRegExp s "-" = "" <-> s = "".
Proof.
  split; intros H.
  - apply runes_nil, length_zero_iff_nil.
    rewrite <- ReplaceAllString_length, H. reflexivity.
  - subst s. reflexivity.
Qed.

(** ** The colon *)

Lemma alphabet_no_byte (c : ascii) (s : string) :
  vmAlphabet c = false -> allInAlphabet s = true -> containsByte c s = false.
Proof.
  intros Hc. unfold allInAlphabet, containsByte.
  induction (list_ascii_of_string s) as [|a l IH]; [reflexivity|].
  cbn [forallb existsb]. intros H. apply andb_true_iff in H as [Ha Hl].
  rewrite (IH Hl), orb_false_r.
  destruct (Ascii.eqb_spec c a) as [->|]; [congruence | reflexivity].
Qed.

(** [strings.Replace] returns a string without the old byte as it is. *)
Lemma replaceFrom_absent (c : ascii) (new s : string) (fuel : nat) :
  containsByte c s = false ->
  strings.replaceFrom fuel s (String c "") new = s.
Proof.
  revert s. induction fuel as [|fuel IH]; intros s Hs; [reflexivity|].
  destruct s as [|a t]; [reflexivity|].
  unfold containsByte in Hs. cbn [list_ascii_of_string existsb] in Hs.
  apply orb_false_iff in Hs as [Ha Ht].
  cbn [strings.replaceFrom String.prefix].
  destruct (ascii_dec c a) as [->|_].
  - rewrite Ascii.eqb_refl in Ha. discriminate.
  - rewrite (IH t Ht). reflexivity.
Qed.

Lemma Replace_absent (c : ascii) (new s : string) :
  containsByte c s = false -> strings.Replace s (String c "") new = s.
Proof.
  intros H. unfold strings.Replace.
  destruct (String c "" =? new)%string; [reflexivity|].
  apply replaceFrom_absent, H.
Qed.

(** ** The controller *)

Lemma GetVMName_nil (ccid : CCID) :
  GetVMName ccid None
  = (regexp.ReplaceAllString vmRegExp (joinedName ccid) "-", None).
Proof. reflexivity. Qed.

Section ControllerProperties.

Local Open Scope list_scope.

Context {Cluster : Type}.
Context {context_Context io_Reader BuildSpecFactory PrelaunchFunc : Type}.

Implicit Types (vm : KubernetesVM Cluster) (w : World Cluster)
  (client : Clientset Cluster) (ctxt : context_Context) (ccid : CCID)
  (builder : BuildSpecFactory) (prelaunchFunc : PrelaunchFunc).

(** [stopInternal] makes one call, a foreground delete in the default
    namespace, logs its answer and returns it. *)
Lemma stopInternal_run vm ctxt client (name : string) (timeout : N)
    (dontkill dontremove : bool) w (derr : option error) (c1 : Cluster) :
  serveDelete client apiv1.NamespaceDefault name foregroundDelete (cluster w) = (derr, c1) ->
  exists l,
    stopInternal vm ctxt client name timeout dontkill dontremove w
    = (derr,
       {| config := config w; cluster := c1;
          calls := calls w ++ [DeleteRequest apiv1.NamespaceDefault name foregroundDelete];
          logs := logs w ++ l |}).
Proof.
  intros Hd. unfold stopInternal, bind, Deployments_Delete.
  change {| metav1.PropagationPolicy := Some metav1.DeletePropagationForeground |}
    with foregroundDelete.
  rewrite Hd. destruct derr; cbn; eexists; reflexivity.
Qed.

(** [Start] without a client: the error of the client constructor comes
    back and nothing is asked of the server. *)
Lemma Start_no_client vm ctxt ccid (args env : list string) builder prelaunchFunc
    w (e : error) w1 :
  getClientFnc vm w = (inr e, w1) ->
  exists l,
    Start vm ctxt ccid args env builder prelaunchFunc w
    = (Some e,
       {| config := config w1; cluster := cluster w1; calls := calls w1;
          logs := logs w1 ++ l |}).
Proof.
  intros Hc. unfold Start, bind. rewrite Hc. cbn. eexists; reflexivity.
Qed.

(** [Start] with a client: the delete in the default namespace, then the
    create in the namespace of the configuration, whose answer is the result
    whatever the delete answered. *)
Lemma Start_run vm ctxt ccid (args env : list string) builder prelaunchFunc
    w client w1 (derr cerr : option error) (c1 c2 : Cluster) :
  getClientFnc vm w = (inl client, w1) ->
  serveDelete client apiv1.NamespaceDefault (fst (GetVMName ccid None))
    foregroundDelete (cluster w1) = (derr, c1) ->
  serveCreate client (startNamespace (config w1))
    (startDeployment (fst (GetVMName ccid None))) c1 = (cerr, c2) ->
  exists l,
    Start vm ctxt ccid args env builder prelaunchFunc w
    = (cerr,
       {| config := config w1; cluster := c2;
          calls := calls w1
                   ++ [ DeleteRequest apiv1.NamespaceDefault (fst (GetVMName ccid None))
                          foregroundDelete;
                        CreateRequest (startNamespace (config w1))
                          (startDeployment (fst (GetVMName ccid None))) ];
          logs := logs w1 ++ l |}).
Proof.
  intros Hc Hd Hcr. rewrite GetVMName_nil in *. cbn [fst] in *.
  unfold Start. unfold bind at 1. rewrite Hc, GetVMName_nil.
  set (name := regexp.ReplaceAllString vmRegExp (joinedName ccid) "-") in *.
  unfold bind, Debugf, Errorf, logf, ret. cbv beta iota.
  match goal with
  | |- context [stopInternal vm ctxt client name 0 false false ?w'] =>
      destruct (stopInternal_run vm ctxt client name 0 false false w' derr c1 Hd)
        as (l1 & ->)
  end.
  cbn [calls config cluster logs].
  unfold bind, viper_IsSet, viper_GetString, ret, Debugf, Errorf, logf, Deployments_Create.
  cbn [calls config cluster logs].
  unfold startNamespace in *.
  destruct (bool_decide (is_Some (config w1 !! "peer.kubernetes.namespace")));
    cbn [calls config cluster logs]; rewrite Hcr.
  all: destruct cerr; cbn [calls config cluster logs];
    rewrite <- !app_assoc; eexists; reflexivity.
Qed.

(** [Stop] without a client. *)
Lemma Stop_no_client vm ctxt ccid (timeout : N) (dontkill dontremove : bool)
    w (e : error) w1 :
  getClientFnc vm w = (inr e, w1) ->
  exists l,
    Stop vm ctxt ccid timeout dontkill dontremove w
    = (Some e,
       {| config := config w1; cluster := cluster w1; calls := calls w1;
          logs := logs w1 ++ l |}).
Proof.
  intros Hc. unfold Stop. rewrite GetVMName_nil. unfold bind. rewrite Hc.
  cbn. eexists; reflexivity.
Qed.

(** [Stop] with a client: one foreground delete of the normalized name in
    the default namespace, whose answer is the result. *)
Lemma Stop_run vm ctxt ccid (timeout : N) (dontkill dontremove : bool)
    w client w1 (derr : option error) (c1 : Cluster) :
  getClientFnc vm w = (inl client, w1) ->
  serveDelete client apiv1.NamespaceDefault
    (strings.Replace (fst (GetVMName ccid None)) ":" "_")
    foregroundDelete (cluster w1) = (derr, c1) ->
  exists l,
    Stop vm ctxt ccid timeout dontkill dontremove w
    = (derr,
       {| config := config w1; cluster := c1;
          calls := calls w1
                   ++ [ DeleteRequest apiv1.NamespaceDefault
                          (strings.Replace (fst (GetVMName ccid None)) ":" "_")
                          foregroundDelete ];
          logs := logs w1 ++ l |}).
Proof.
  intros Hc Hd. rewrite GetVMName_nil in *. cbn [fst] in *.
  unfold Stop. rewrite GetVMName_nil. unfold bind at 1. rewrite Hc.
  unfold bind at 1.
  destruct (stopInternal_run vm ctxt client _ timeout dontkill dontremove w1 derr c1 Hd)
    as (l1 & ->).
  eexists; reflexivity.
Qed.

End ControllerProperties.

(** * The claims *)

(** ** Naming *)

(** C4. Name resolution joins the parts of the identity with single [-]
    separators before anything else is done to the name: with a network id
    and a peer id the name handed on is [networkID-peerID-baseName], with
    only one of them that one is put in front of the base name, with none
    the base name is taken as it is; it is this joined name that is
    sanitized, and resolving the identity, with or without a format
    function, is resolving the joined name.  The identity
    [net1], [peer1], [mycc] resolves to [net1-peer1-mycc]. *)
Theorem GetVMName_joins_identity (ccid : CCID)
    (format : option (string -> string * option error)) :
  (NetworkID ccid <> "" -> PeerID ccid <> "" ->
   joinedName ccid = NetworkID ccid ++ "-" ++ PeerID ccid ++ "-" ++ GetName ccid)
  /\ (NetworkID ccid <> "" -> PeerID ccid = "" ->
      joinedName ccid = NetworkID ccid ++ "-" ++ GetName ccid)
  /\ (NetworkID ccid = "" -> PeerID ccid <> "" ->
      joinedName ccid = PeerID ccid ++ "-" ++ GetName ccid)
  /\ (NetworkID ccid = "" -> PeerID ccid = "" -> joinedName ccid = GetName ccid)
  /\ GetVMName ccid None
     = (regexp.ReplaceAllString vmRegExp (joinedName ccid) "-", None)
  /\ GetVMName ccid format
     = GetVMName {| NetworkID := ""; PeerID := ""; baseName := joinedName ccid |} format
  /\ GetVMName {| NetworkID := "net1"; PeerID := "peer1"; baseName := "mycc" |} None
     = ("net1-peer1-mycc", None).
Proof.
  unfold joinedName at 1 2 3 4.
  destruct (String.eqb_spec (NetworkID ccid) "") as [Hn|Hn];
    destruct (String.eqb_spec (PeerID ccid) "") as [Hp|Hp];
    cbn [negb andb]; repeat split; intros; try reflexivity; try contradiction.
Qed.

Lemma GetVMName_joins_identity_witness :
  joinedName {| NetworkID := "net1"; PeerID := "peer1"; baseName := "my cc" |}
  = "net1-peer1-my cc"
  /\ joinedName {| NetworkID := "net1"; PeerID := ""; baseName := "my cc" |}
     = "net1-my cc"
  /\ joinedName {| NetworkID := ""; PeerID := "peer1"; baseName := "my cc" |}
     = "peer1-my cc"
  /\ joinedName {| NetworkID := ""; PeerID := ""; baseName := "my cc" |} = "my cc".
Proof.
  split; [|split; [|split]].
  - apply (GetVMName_joins_identity
             {| NetworkID := "net1"; PeerID := "peer1"; baseName := "my cc" |} None);
      discriminate.
  - apply (GetVMName_joins_identity
             {| NetworkID := "net1"; PeerID := ""; baseName := "my cc" |} None);
      [discriminate | reflexivity].
  - apply (GetVMName_joins_identity
             {| NetworkID := ""; PeerID := "peer1"; baseName := "my cc" |} None);
      [reflexivity | discriminate].
  - apply (GetVMName_joins_identity
             {| NetworkID := ""; PeerID := ""; baseName := "my cc" |} None);
      reflexivity.
Defined.

(** C5. When the format function returns an error, [GetVMName] returns that
    error at once together with the string the function returned, exactly
    as returned: the replacement of the characters outside the alphabet is
    not applied on this path. *)
Theorem GetVMName_format_error (ccid : CCID) (f : string -> string * option error)
    (formattedName : string) (e : error) :
  f (joinedName ccid) = (formattedName, Some e) ->
  GetVMName ccid (Some f) = (formattedName, Some e).
Proof.
  intros Hf. unfold GetVMName. rewrite Hf. reflexivity.
Qed.

Lemma GetVMName_format_error_witness :
  GetVMName {| NetworkID := "net1"; PeerID := "peer1"; baseName := "mycc" |}
    (Some (fun name => (name ++ " (v1)?", Some (errorString "no such format"))))
  = ("net1-peer1-mycc (v1)?", Some (errorString "no such format")).
Proof.
  apply (GetVMName_format_error
           {| NetworkID := "net1"; PeerID := "peer1"; baseName := "mycc" |}
           (fun name => (name ++ " (v1)?", Some (errorString "no such format")))).
  reflexivity.
Defined.

Lemma sanitizedFrom_ReplaceAllString (name : string) :
  sanitizedFrom (regexp.ReplaceAllString vmRegExp name "-", None) name.
Proof.
  unfold sanitizedFrom. cbn [fst snd].
  pose proof (ReplaceAllString_alphabet name) as Ha.
  pose proof (ReplaceAllString_empty name) as He.
  split; [reflexivity|].
  split; [apply ReplaceAllString_spec|].
  split; [exact Ha|].
  split; [apply ReplaceAllString_length|].
  split; [exact He|].
  unfold matchesNameGrammar. rewrite Ha, andb_true_r, negb_true_iff.
  rewrite <- He.
  destruct (String.eqb_spec (regexp.ReplaceAllString vmRegExp name "-") "") as [E|E];
    split; intros H; congruence.
Qed.

(** C6, as amended.  For every identity and every format function that does
    not fail, the name [GetVMName] returns is made of characters of
    [[A-Za-z0-9-_.]] only: it is the name after joining and formatting with
    every rune outside the alphabet replaced by one [-] and every other
    character kept, so it has as many characters as that name has runes, and
    it is empty exactly when that name is empty; it matches
    [[A-Za-z0-9\-_.]+] exactly when that name is not empty.  The identity
    with base name [my cc!] and nothing else resolves to [my-cc-]. *)
Theorem GetVMName_sanitized (ccid : CCID) :
  sanitizedFrom (GetVMName ccid None) (joinedName ccid)
  /\ (forall (f : string -> string * option error) (name : string),
        f (joinedName ccid) = (name, None) ->
        sanitizedFrom (GetVMName ccid (Some f)) name)
  /\ GetVMName {| NetworkID := ""; PeerID := ""; baseName := "my cc!" |} None
     = ("my-cc-", None).
Proof.
  split; [|split].
  - rewrite GetVMName_nil. apply sanitizedFrom_ReplaceAllString.
  - intros f name Hf. unfold GetVMName. rewrite Hf.
    apply sanitizedFrom_ReplaceAllString.
  - reflexivity.
Qed.

Lemma GetVMName_sanitized_witness :
  sanitizedFrom
    (GetVMName {| NetworkID := "net 1"; PeerID := ""; baseName := "my:cc" |}
       (Some (fun name => (name ++ "@v1", None))))
    "net 1-my:cc@v1".
Proof.
  apply (GetVMName_sanitized
           {| NetworkID := "net 1"; PeerID := ""; baseName := "my:cc" |}).
  reflexivity.
Defined.

(** C6 as stated fails: the identity whose three parts are empty resolves,
    without error, to the empty name, which does not match
    [[A-Za-z0-9\-_.]+]. *)
Lemma GetVMName_empty_identity :
  GetVMName {| NetworkID := ""; PeerID := ""; baseName := "" |} None = ("", None)
  /\ matchesNameGrammar
       (fst (GetVMName {| NetworkID := ""; PeerID := ""; baseName := "" |} None))
     = false.
Proof. split; reflexivity. Qed.

(** C7. Sanitization is idempotent: replacing the characters outside the
    alphabet twice is replacing them once.  So a name that is made of
    characters of the alphabet is left as it is, by the replacement and by
    [GetVMName]; in particular resolving a resolved name gives it back. *)
Theorem sanitize_idempotent (x : string) :
  regexp.ReplaceAllString vmRegExp (regexp.ReplaceAllString vmRegExp x "-") "-"
  = regexp.ReplaceAllString vmRegExp x "-"
  /\ (allInAlphabet x = true -> regexp.ReplaceAllString vmRegExp x "-" = x)
  /\ (forall ccid : CCID,
        allInAlphabet (joinedName ccid) = true ->
        GetVMName ccid None = (joinedName ccid, None))
  /\ (forall ccid : CCID,
        GetVMName {| NetworkID := ""; PeerID := "";
                     baseName := fst (GetVMName ccid None) |} None
        = GetVMName ccid None).
Proof.
  repeat split.
  - apply ReplaceAllString_idempotent.
  - apply ReplaceAllString_fixed.
  - intros ccid H. rewrite GetVMName_nil, ReplaceAllString_fixed by exact H.
    reflexivity.
  - intros ccid. rewrite !GetVMName_nil. cbn [fst].
    match goal with
    | |- context [joinedName {| NetworkID := ""; PeerID := ""; baseName := ?n |}] =>
        change (joinedName {| NetworkID := ""; PeerID := ""; baseName := n |}) with n
    end.
    rewrite ReplaceAllString_idempotent. reflexivity.
Qed.

Lemma sanitize_idempotent_witness :
  regexp.ReplaceAllString vmRegExp "net1-peer1-my_cc.v1" "-" = "net1-peer1-my_cc.v1".
Proof.
  apply (sanitize_idempotent "net1-peer1-my_cc.v1"). reflexivity.
Defined.

(** ** Lifecycle *)

Section Claims.

Local Open Scope list_scope.

Context {Cluster : Type}.
Context {context_Context io_Reader BuildSpecFactory PrelaunchFunc : Type}.

Implicit Types (vm : KubernetesVM Cluster) (w : World Cluster)
  (client : Clientset Cluster) (ctxt : context_Context) (ccid : CCID)
  (builder : BuildSpecFactory) (prelaunchFunc : PrelaunchFunc).

(** C1, as amended.  In every world, so for every identity and every
    configuration, and as well after a first [Start] as before it: once it
    has a client, [Start] asks for the delete of the resolved name and then
    for the create, and the answer [derr] of the delete, success or any
    error, decides nothing: the create is asked for on the cluster the
    delete left, and what [Start] returns is the answer of the create.  So
    no [Start], a second one for the same identity included, is failed on
    account of the outcome of its delete; it fails, a client being there,
    exactly when the server refuses its create. *)
Theorem Start_predelete_best_effort vm ctxt ccid (args env : list string)
    builder prelaunchFunc w client w1 (derr : option error) (c1 : Cluster) :
  getClientFnc vm w = (inl client, w1) ->
  serveDelete client apiv1.NamespaceDefault (fst (GetVMName ccid None))
    foregroundDelete (cluster w1) = (derr, c1) ->
  let created :=
    serveCreate client (startNamespace (config w1))
      (startDeployment (fst (GetVMName ccid None))) c1 in
  let out := Start vm ctxt ccid args env builder prelaunchFunc w in
  calls (snd out)
  = calls w1 ++ [ DeleteRequest apiv1.NamespaceDefault (fst (GetVMName ccid None))
                    foregroundDelete;
                  CreateRequest (startNamespace (config w1))
                    (startDeployment (fst (GetVMName ccid None))) ]
  /\ fst out = fst created
  /\ cluster (snd out) = snd created.
Proof.
  intros Hc Hd created out.
  destruct created as [cerr c2] eqn:Hcr.
  destruct (Start_run vm ctxt ccid args env builder prelaunchFunc
              w client w1 derr cerr c1 c2 Hc Hd Hcr) as (l & E).
  subst out. rewrite E. cbn. auto.
Qed.

(** C3. Once it has a client, [Stop] resolves the name without a format
    function, replaces its colons by underscores, asks for one delete, with
    the foreground propagation policy, and returns the answer of that delete
    as it is: nil when the delete succeeded, the error of the server when it
    did not, the not-found error of a deployment that was never started
    included. *)
Theorem Stop_returns_delete_result vm ctxt ccid (timeout : N)
    (dontkill dontremove : bool) w client w1 (derr : option error) (c1 : Cluster) :
  getClientFnc vm w = (inl client, w1) ->
  serveDelete client apiv1.NamespaceDefault
    (strings.Replace (fst (GetVMName ccid None)) ":" "_")
    {| metav1.PropagationPolicy := Some metav1.DeletePropagationForeground |}
    (cluster w1) = (derr, c1) ->
  let out := Stop vm ctxt ccid timeout dontkill dontremove w in
  fst out = derr
  /\ calls (snd out)
     = calls w1
       ++ [ DeleteRequest apiv1.NamespaceDefault
              (strings.Replace (fst (GetVMName ccid None)) ":" "_")
              {| metav1.PropagationPolicy := Some metav1.DeletePropagationForeground |} ]
  /\ cluster (snd out) = c1.
Proof.
  intros Hc Hd out.
  destruct (Stop_run vm ctxt ccid timeout dontkill dontremove w client w1 derr c1 Hc Hd)
    as (l & E).
  subst out. rewrite E. cbn. auto.
Qed.

(** C8. [Destroy] and [Deploy] return nil for every input and leave the
    world as it is: no call on the client, no change of the cluster. *)
Theorem Destroy_Deploy_noop vm ctxt ccid (force noprune : bool)
    (args env : list string) (reader : io_Reader) w :
  Destroy vm ctxt ccid force noprune w = (None, w)
  /\ Deploy vm ctxt ccid args env reader w = (None, w).
Proof.
  split.
  - unfold Destroy, ret. reflexivity.
  - unfold Deploy, ret. reflexivity.
Qed.

(** C9. The name [GetVMName] returns without a format function has no
    colon in it, so the replacement of colons in [Stop] changes nothing;
    the delete of [Stop] names the very string that [Start] gives the
    deployment it creates. *)
Theorem Stop_deletes_the_name_Start_creates ccid :
  containsByte ":" (fst (GetVMName ccid None)) = false
  /\ strings.Replace (fst (GetVMName ccid None)) ":" "_" = fst (GetVMName ccid None)
  /\ (forall vm ctxt (args env : list string) builder prelaunchFunc
             (timeout : N) (dontkill dontremove : bool)
             w w' client client' w1 w1',
        getClientFnc vm w = (inl client, w1) ->
        getClientFnc vm w' = (inl client', w1') ->
        exists (namespace : string) (deployment : appsv1beta1.Deployment),
          last (calls (snd (Start vm ctxt ccid args env builder prelaunchFunc w)))
          = Some (CreateRequest namespace deployment)
          /\ last (calls (snd (Stop vm ctxt ccid timeout dontkill dontremove w')))
             = Some (DeleteRequest apiv1.NamespaceDefault
                       (metav1.Name (appsv1beta1.ObjectMeta deployment))
                       foregroundDelete)).
Proof.
  assert (containsByte ":" (fst (GetVMName ccid None)) = false) as Hcolon.
  { rewrite GetVMName_nil. cbn [fst].
    apply alphabet_no_byte; [reflexivity | apply ReplaceAllString_alphabet]. }
  assert (strings.Replace (fst (GetVMName ccid None)) ":" "_"
          = fst (GetVMName ccid None)) as Hrep
    by (apply Replace_absent, Hcolon).
  split; [exact Hcolon | split; [exact Hrep |]].
  intros vm ctxt args env builder prelaunchFunc timeout dontkill dontremove
         w w' client client' w1 w1' Hc Hc'.
  destruct (serveDelete client apiv1.NamespaceDefault (fst (GetVMName ccid None))
              foregroundDelete (cluster w1)) as [derr c1] eqn:Hd.
  destruct (serveCreate client (startNamespace (config w1))
              (startDeployment (fst (GetVMName ccid None))) c1) as [cerr c2] eqn:Hcr.
  destruct (Start_run vm ctxt ccid args env builder prelaunchFunc
              w client w1 derr cerr c1 c2 Hc Hd Hcr) as (l & ->).
  destruct (serveDelete client' apiv1.NamespaceDefault
              (strings.Replace (fst (GetVMName ccid None)) ":" "_")
              foregroundDelete (cluster w1')) as [derr' c1'] eqn:Hd'.
  destruct (Stop_run vm ctxt ccid timeout dontkill dontremove
              w' client' w1' derr' c1' Hc' Hd') as (l' & ->).
  exists (startNamespace (config w1)), (startDeployment (fst (GetVMName ccid None))).
  cbn [snd calls]. rewrite Hrep. split.
  - change [DeleteRequest apiv1.NamespaceDefault (fst (GetVMName ccid None)) foregroundDelete;
            CreateRequest (startNamespace (config w1))
              (startDeployment (fst (GetVMName ccid None)))]
      with ([DeleteRequest apiv1.NamespaceDefault (fst (GetVMName ccid None)) foregroundDelete]
            ++ [CreateRequest (startNamespace (config w1))
                  (startDeployment (fst (GetVMName ccid None)))]).
    rewrite app_assoc. apply last_snoc.
  - apply last_snoc.
Qed.

(** C10. [GetVMName] returns an error exactly when it is given a format
    function and that function returns that error; without one it never
    does.  [Start] and [Stop] resolve the name without one, so an error they
    return is the error of the client constructor, or else the answer of
    the create ([Start]) or of the delete ([Stop]) they asked the server
    for. *)
Theorem errors_come_from_client_or_server ccid :
  (forall (format : option (string -> string * option error)) (e : error),
     snd (GetVMName ccid format) = Some e
     <-> exists f, format = Some f /\ snd (f (joinedName ccid)) = Some e)
  /\ snd (GetVMName ccid None) = None
  /\ (forall vm ctxt (args env : list string) builder prelaunchFunc w (e : error),
        fst (Start vm ctxt ccid args env builder prelaunchFunc w) = Some e ->
        fst (getClientFnc vm w) = inr e
        \/ exists client (c : Cluster),
             fst (getClientFnc vm w) = inl client
             /\ fst (serveCreate client
                       (startNamespace (config (snd (getClientFnc vm w))))
                       (startDeployment (fst (GetVMName ccid None))) c) = Some e)
  /\ (forall vm ctxt (timeout : N) (dontkill dontremove : bool) w (e : error),
        fst (Stop vm ctxt ccid timeout dontkill dontremove w) = Some e ->
        fst (getClientFnc vm w) = inr e
        \/ exists client,
             fst (getClientFnc vm w) = inl client
             /\ fst (serveDelete client apiv1.NamespaceDefault
                       (strings.Replace (fst (GetVMName ccid None)) ":" "_")
                       foregroundDelete
                       (cluster (snd (getClientFnc vm w)))) = Some e).
Proof.
  split; [|split; [reflexivity | split]].
  - intros format e. unfold GetVMName. destruct format as [f|].
    + destruct (f (joinedName ccid)) as [formattedName [e'|]] eqn:Hf; cbn [snd].
      * split.
        -- intros H. exists f. rewrite Hf. auto.
        -- intros (f' & Hf' & He). injection Hf' as <-. rewrite Hf in He. exact He.
      * split; [discriminate|].
        intros (f' & Hf' & He). injection Hf' as <-. rewrite Hf in He. discriminate.
    + cbn [snd]. split; [discriminate|]. intros (f & Hf & _). discriminate.
  - intros vm ctxt args env builder prelaunchFunc w e H.
    destruct (getClientFnc vm w) as [[client|e'] w1] eqn:Hc; cbn [fst snd].
    + right.
      destruct (serveDelete client apiv1.NamespaceDefault (fst (GetVMName ccid None))
                  foregroundDelete (cluster w1)) as [derr c1] eqn:Hd.
      destruct (serveCreate client (startNamespace (config w1))
                  (startDeployment (fst (GetVMName ccid None))) c1) as [cerr c2] eqn:Hcr.
      destruct (Start_run vm ctxt ccid args env builder prelaunchFunc
                  w client w1 derr cerr c1 c2 Hc Hd Hcr) as (l & E).
      rewrite E in H. cbn [fst] in H. subst cerr.
      exists client, c1. rewrite Hcr. split; reflexivity.
    + left.
      destruct (Start_no_client vm ctxt ccid args env builder prelaunchFunc w e' w1 Hc)
        as (l & E).
      rewrite E in H. cbn [fst] in H. congruence.
  - intros vm ctxt timeout dontkill dontremove w e H.
    destruct (getClientFnc vm w) as [[client|e'] w1] eqn:Hc; cbn [fst snd].
    + right.
      destruct (serveDelete client apiv1.NamespaceDefault
                  (strings.Replace (fst (GetVMName ccid None)) ":" "_")
                  foregroundDelete (cluster w1)) as [derr c1] eqn:Hd.
      destruct (Stop_run vm ctxt ccid timeout dontkill dontremove
                  w client w1 derr c1 Hc Hd) as (l & E).
      rewrite E in H. cbn [fst] in H. subst derr.
      exists client. rewrite Hd. split; reflexivity.
    + left.
      destruct (Stop_no_client vm ctxt ccid timeout dontkill dontremove w e' w1 Hc)
        as (l & E).
      rewrite E in H. cbn [fst] in H. congruence.
Qed.

(** Without a client [Start] returns the error of the client constructor;
    no delete and no create is asked for and the cluster is as the
    constructor left it. *)
Theorem Start_without_client vm ctxt ccid (args env : list string)
    builder prelaunchFunc w (e : error) w1 :
  getClientFnc vm w = (inr e, w1) ->
  let out := Start vm ctxt ccid args env builder prelaunchFunc w in
  fst out = Some e /\ calls (snd out) = calls w1 /\ cluster (snd out) = cluster w1.
Proof.
  intros Hc out.
  destruct (Start_no_client vm ctxt ccid args env builder prelaunchFunc w e w1 Hc)
    as (l & E).
  subst out. rewrite E. cbn. auto.
Qed.

(** Without a client [Stop] returns the error of the client constructor and
    asks for no delete. *)
Theorem Stop_without_client vm ctxt ccid (timeout : N) (dontkill dontremove : bool)
    w (e : error) w1 :
  getClientFnc vm w = (inr e, w1) ->
  let out := Stop vm ctxt ccid timeout dontkill dontremove w in
  fst out = Some e /\ calls (snd out) = calls w1 /\ cluster (snd out) = cluster w1.
Proof.
  intros Hc out.
  destruct (Stop_no_client vm ctxt ccid timeout dontkill dontremove w e w1 Hc)
    as (l & E).
  subst out. rewrite E. cbn. auto.
Qed.

End Claims.

(** ** The claims at work on the example cluster *)

Lemma Start_predelete_best_effort_witness :
  let w := exampleWorld ∅ in
  let out1 := Start exampleVM tt net1_peer1_mycc [] [] tt tt w in
  let out2 := Start exampleVM tt net1_peer1_mycc [] [] tt tt (snd out1) in
  fst out1 = None
  /\ fst out2 = None
  /\ calls (snd out2)
     = [ DeleteRequest "default" "net1-peer1-mycc" foregroundDelete;
         CreateRequest "default" (startDeployment "net1-peer1-mycc");
         DeleteRequest "default" "net1-peer1-mycc" foregroundDelete;
         CreateRequest "default" (startDeployment "net1-peer1-mycc") ].
Proof.
  intros w out1 out2.
  pose proof (Start_predelete_best_effort exampleVM tt net1_peer1_mycc [] [] tt tt
                w exampleClientset w
                (Some (StatusError "NotFound" "net1-peer1-mycc")) ∅
                eq_refl eq_refl) as (_ & H1 & _).
  pose proof (Start_predelete_best_effort exampleVM tt net1_peer1_mycc [] [] tt tt
                (snd out1) exampleClientset (snd out1) None ∅
                eq_refl ltac:(vm_compute; reflexivity)) as (H2c & H2 & _).
  split; [|split].
  - fold out1 in H1. rewrite H1. vm_compute. reflexivity.
  - fold out2 in H2. rewrite H2. vm_compute. reflexivity.
  - fold out2 in H2c. rewrite H2c. vm_compute. reflexivity.
Defined.

(** C1 as stated fails: a second [Start] can be failed because of the
    deployment the first one left.  On a server where a deployment deleted
    with the foreground policy stays visible, with nothing configured, the
    delete of the second [Start] is accepted and its create is refused, the
    name being taken; [Start] returns that refusal.  The same happens on
    the example cluster, which deletes at once, when a namespace is
    configured (see C2). *)
Lemma second_Start_refused :
  (let w := exampleWorld ∅ in
   let out1 := Start lingeringVM tt net1_peer1_mycc [] [] tt tt w in
   let out2 := Start lingeringVM tt net1_peer1_mycc [] [] tt tt (snd out1) in
   fst out1 = None
   /\ fst (serveDelete lingeringClientset "default" "net1-peer1-mycc" foregroundDelete
             (cluster (snd out1))) = None
   /\ calls (snd out2)
      = [ DeleteRequest "default" "net1-peer1-mycc" foregroundDelete;
          CreateRequest "default" (startDeployment "net1-peer1-mycc");
          DeleteRequest "default" "net1-peer1-mycc" foregroundDelete;
          CreateRequest "default" (startDeployment "net1-peer1-mycc") ]
   /\ fst out2 = Some (StatusError "AlreadyExists" "net1-peer1-mycc"))
  /\ (let w := exampleWorld {[ "peer.kubernetes.namespace" := "fabric" ]} in
      let out1 := Start exampleVM tt net1_peer1_mycc [] [] tt tt w in
      let out2 := Start exampleVM tt net1_peer1_mycc [] [] tt tt (snd out1) in
      fst out1 = None
      /\ fst out2 = Some (StatusError "AlreadyExists" "net1-peer1-mycc")).
Proof.
  vm_compute. repeat split; reflexivity.
Qed.

Lemma Stop_returns_delete_result_witness :
  let out := Stop exampleVM tt net1_peer1_mycc 0 false false (exampleWorld ∅) in
  fst out = Some (StatusError "NotFound" "net1-peer1-mycc")
  /\ calls (snd out) = [ DeleteRequest "default" "net1-peer1-mycc" foregroundDelete ]
  /\ cluster (snd out) = ∅.
Proof.
  apply (Stop_returns_delete_result exampleVM tt net1_peer1_mycc 0 false false
           (exampleWorld ∅) exampleClientset (exampleWorld ∅)
           (Some (StatusError "NotFound" "net1-peer1-mycc")) ∅);
    reflexivity.
Defined.

Lemma Stop_deletes_the_name_Start_creates_witness :
  let ccid := {| NetworkID := "dev:1"; PeerID := "peer0"; baseName := "mycc:1.0" |} in
  exists (namespace : string) (deployment : appsv1beta1.Deployment),
    last (calls (snd (Start exampleVM tt ccid [] [] tt tt (exampleWorld ∅))))
    = Some (CreateRequest namespace deployment)
    /\ last (calls (snd (Stop exampleVM tt ccid 0 false false (exampleWorld ∅))))
       = Some (DeleteRequest apiv1.NamespaceDefault
                 (metav1.Name (appsv1beta1.ObjectMeta deployment))
                 foregroundDelete).
Proof.
  intros ccid.
  apply (proj2 (proj2 (Stop_deletes_the_name_Start_creates ccid))
           exampleVM tt [] [] tt tt 0%N false false
           (exampleWorld ∅) (exampleWorld ∅) exampleClientset exampleClientset
           (exampleWorld ∅) (exampleWorld ∅));
    reflexivity.
Defined.

Lemma errors_come_from_client_or_server_witness :
  fst (getClientFnc brokenVM (exampleWorld ∅)) = inr (errorString "no kubeconfig")
  \/ exists client c,
       fst (getClientFnc brokenVM (exampleWorld ∅)) = inl client
       /\ fst (serveCreate client
                 (startNamespace (config (snd (getClientFnc brokenVM (exampleWorld ∅)))))
                 (startDeployment (fst (GetVMName net1_peer1_mycc None))) c)
          = Some (errorString "no kubeconfig").
Proof.
  apply (proj1 (proj2 (proj2 (errors_come_from_client_or_server net1_peer1_mycc)))
           brokenVM tt [] [] tt tt (exampleWorld ∅) (errorString "no kubeconfig")).
  reflexivity.
Defined.

(** C2 states that the delete [Start] begins with is made in the namespace
    of the create.  The code does not do that: [stopInternal] always
    deletes in [apiv1.NamespaceDefault], whereas the create goes to the
    configured namespace.  With [peer.kubernetes.namespace] set to [fabric],
    the delete is asked for in [default] and the create in [fabric]; on the
    example cluster the deployment of a first [Start] is thus still there at
    the second, whose create is refused. *)
Example Start_predelete_misses_configured_namespace :
  let w := exampleWorld {[ "peer.kubernetes.namespace" := "fabric" ]} in
  let out1 := Start exampleVM tt net1_peer1_mycc [] [] tt tt w in
  let out2 := Start exampleVM tt net1_peer1_mycc [] [] tt tt (snd out1) in
  calls (snd out1)
  = [ DeleteRequest "default" "net1-peer1-mycc" foregroundDelete;
      CreateRequest "fabric" (startDeployment "net1-peer1-mycc") ]
  /\ fst out1 = None
  /\ cluster (snd out1) !! ("fabric", "net1-peer1-mycc")
     = Some (startDeployment "net1-peer1-mycc")
  /\ fst out2 = Some (StatusError "AlreadyExists" "net1-peer1-mycc").
Proof.
  vm_compute. repeat split; reflexivity.
Qed.

Lemma Start_without_client_witness :
  let out := Start brokenVM tt net1_peer1_mycc [] [] tt tt (exampleWorld ∅) in
  fst out = Some (errorString "no kubeconfig")
  /\ calls (snd out) = []
  /\ cluster (snd out) = ∅.
Proof.
  apply (Start_without_client brokenVM tt net1_peer1_mycc [] [] tt tt
           (exampleWorld ∅) (errorString "no kubeconfig") (exampleWorld ∅)).
  reflexivity.
Defined.

Lemma Stop_without_client_witness :
  let out := Stop brokenVM tt net1_peer1_mycc 0 false false (exampleWorld ∅) in
  fst out = Some (errorString "no kubeconfig")
  /\ calls (snd out) = []
  /\ cluster (snd out) = ∅.
Proof.
  apply (Stop_without_client brokenVM tt net1_peer1_mycc 0%N false false
           (exampleWorld ∅) (errorString "no kubeconfig") (exampleWorld ∅)).
  reflexivity.
Defined.

(** The namespace of the create is the one the delete before it is made in,
    [apiv1.NamespaceDefault], exactly when no namespace is configured or the
    configured one is [default]. *)
Theorem startNamespace_default (cfg : gmap string string) :
  startNamespace cfg = apiv1.NamespaceDefault
  <-> cfg !! "peer.kubernetes.namespace" = None
      \/ cfg !! "peer.kubernetes.namespace" = Some "default".
Proof.
  unfold startNamespace, apiv1.NamespaceDefault.
  destruct (cfg !! "peer.kubernetes.namespace") as [ns|] eqn:E.
  - rewrite bool_decide_eq_true_2 by eauto.
    change (default "" (Some ns)) with ns.
    split.
    + intros H. right. f_equal. exact H.
    + intros [H|H]; [discriminate | injection H as H; exact H].
  - rewrite bool_decide_eq_false_2 by (intros [? ?]; discriminate).
    split; auto.
Qed.

(** * The client constructor *)

(** ** Paths *)

Lemma Clean_nonempty (path : string) : filepath.Clean path <> "".
Proof.
  unfold filepath.Clean. destruct path as [|c0 t0]; [discriminate|].
  cbv zeta.
  match goal with
  | |- (if (List.length ?o =? 0)%nat then _ else _) <> _ =>
      generalize o; intros out
  end.
  destruct (rev out) as [|a l] eqn:E.
  - apply (f_equal (@List.length ascii)) in E. rewrite length_rev in E.
    rewrite E. discriminate.
  - assert (List.length out <> 0%nat) as Hn.
    { intros H. apply length_zero_iff_nil in H. subst out. discriminate. }
    apply Nat.eqb_neq in Hn. rewrite Hn. discriminate.
Qed.

(** [Join] gives the empty path only when every element is empty. *)
Lemma Join_empty_iff (elem : list string) :
  filepath.Join elem = "" <-> Forall (fun e => e = "") elem.
Proof.
  induction elem as [|e rest IH].
  - split; [constructor | reflexivity].
  - cbn [filepath.Join]. destruct (String.eqb_spec e "") as [->|Hne].
    + rewrite IH. split; intros H.
      * constructor; [reflexivity | exact H].
      * inversion H; assumption.
    + split; intros H.
      * exfalso. exact (Clean_nonempty _ H).
      * inversion H; contradiction.
Qed.

Lemma Join_home_kube_config (home : string) :
  home <> "" ->
  filepath.Join [home; ".kube"; "config"] = filepath.Clean (home ++ "/.kube/config")
  /\ filepath.Join [home; ".kube"; "config"] <> "".
Proof.
  intros Hh. cbn [filepath.Join].
  destruct (String.eqb_spec home "") as [|_]; [contradiction|].
  split; [reflexivity | apply Clean_nonempty].
Qed.

Lemma length_afterElement (path : string) :
  (String.length (filepath.afterElement path) <= String.length path)%nat.
Proof.
  induction path as [|c t IH]; [reflexivity|].
  cbn [filepath.afterElement]. destruct (filepath.IsPathSeparator c); simpl; lia.
Qed.

(** The loop of [Clean] has used up the path after as many turns as the
    path has bytes: more turns change nothing. *)
Lemma cleanLoop_enough_fuel (fuel fuel' : nat) (rooted : bool) (path : string)
    (out : list ascii) (dotdot : nat) :
  (String.length path <= fuel)%nat ->
  (String.length path <= fuel')%nat ->
  filepath.cleanLoop fuel rooted path out dotdot
  = filepath.cleanLoop fuel' rooted path out dotdot.
Proof.
  revert fuel' path out dotdot.
  induction fuel as [|fuel IH]; intros fuel' path out dotdot Hf Hf'.
  - destruct path; [destruct fuel'; reflexivity | simpl in Hf; lia].
  - destruct path as [|c0 t0]; [destruct fuel'; reflexivity|].
    destruct fuel' as [|fuel']; [simpl in Hf'; lia|].
    simpl in Hf, Hf'.
    assert (String.length (slice_from 1 t0) <= String.length t0)%nat as Hs
      by (rewrite length_slice_from; lia).
    cbn [filepath.cleanLoop].
    destruct (filepath.IsPathSeparator c0) eqn:Hsep.
    { apply IH; lia. }
    repeat match goal with
           | |- (if ?b then _ else _) = (if ?b then _ else _) => destruct b
           end;
      try (apply IH; lia).
    apply IH.
    + pose proof (length_afterElement (String c0 t0)) as L.
      cbn [filepath.afterElement] in *. rewrite Hsep in *. 
      pose proof (length_afterElement t0). lia.
    + cbn [filepath.afterElement]. rewrite Hsep.
      pose proof (length_afterElement t0). lia.
Qed.

(** ** [NewKubernetesClient] *)

Section UtilProperties.

Local Open Scope list_scope.

Context {Cluster RestOther : Type}.
Context {context_Context BuildSpecFactory PrelaunchFunc : Type}.

Implicit Types (p : Platform Cluster RestOther) (w : World Cluster)
  (client : Clientset Cluster) (ctxt : context_Context) (ccid : CCID)
  (builder : BuildSpecFactory) (prelaunchFunc : PrelaunchFunc).

(** Which of the two loaders this code calls.  [buildConfigFromFlags]
    calls [rest.InClusterConfig] itself only when no endpoint and no
    kubeconfig are configured and the process has no home directory; in
    every other case it hands the question to the kubeconfig loader of
    [clientcmd], with the configured endpoint as server override and with
    the configured path or, when none is configured, the cleaned
    [.kube/config] under the home directory, a path that is never empty,
    and returns what that loader returns.  What the loader does with the
    path and the override is outside this code and left open here. *)
Theorem kubeconfig_source p (endpoint kubeConfig : string) :
  let path := kubeConfigPath p kubeConfig in
  (endpoint = "" -> kubeConfig = "" -> Getenv_HOME p = "" ->
   buildConfigFromFlags p endpoint path = InClusterConfig p)
  /\ (endpoint <> "" \/ kubeConfig <> "" \/ Getenv_HOME p <> "" ->
      buildConfigFromFlags p endpoint path = ClientConfig p path endpoint)
  /\ (kubeConfig <> "" -> path = kubeConfig)
  /\ (kubeConfig = "" -> Getenv_HOME p <> "" ->
      path = filepath.Clean (Getenv_HOME p ++ "/.kube/config")%string /\ path <> "")
  /\ (kubeConfig = "" -> Getenv_HOME p = "" -> path = "").
Proof.
  intros path. subst path. unfold kubeConfigPath, homedir_HomeDir.
  destruct (String.eqb_spec kubeConfig "") as [Hk|Hk];
    destruct (String.eqb_spec (Getenv_HOME p) "") as [Hh|Hh]; cbn [negb].
  - (* nothing configured, no home *)
    repeat split; try congruence.
    + intros He _ _. unfold buildConfigFromFlags. subst. cbn.
      destruct (InClusterConfig p); reflexivity.
    + intros [He | [Hk' | Hh']]; try contradiction.
      unfold buildConfigFromFlags.
      destruct (String.eqb_spec endpoint "") as [|_]; [contradiction|].
      rewrite andb_false_r. reflexivity.
  - (* no kubeconfig configured, a home *)
    destruct (Join_home_kube_config _ Hh) as [HJ HJne].
    repeat split; try congruence; try contradiction.
    intros _. unfold buildConfigFromFlags.
    destruct (String.eqb_spec (filepath.Join [Getenv_HOME p; ".kube"; "config"]) "")
      as [E|_]; [contradiction | reflexivity].
  - (* a kubeconfig configured, no home *)
    repeat split; try congruence; try contradiction.
    intros _. unfold buildConfigFromFlags.
    destruct (String.eqb_spec kubeConfig "") as [|_]; [contradiction | reflexivity].
  - repeat split; try congruence; try contradiction.
    intros _. unfold buildConfigFromFlags.
    destruct (String.eqb_spec kubeConfig "") as [|_]; [contradiction | reflexivity].
Qed.

(** The configuration [NewKubernetesClient] loads in the world [w]. *)
Lemma NewKubernetesClient_loads p w :
  NewKubernetesClient p w
  = match buildConfigFromFlags p (default "" (config w !! "peer.kubernetes.endpoint"))
            (kubeConfigPath p (default "" (config w !! "peer.kubernetes.kubeconfig"))) with
    | inr err => (([], inr err), w)
    | inl cfg =>
        match NewForConfig p (withClientSettings cfg) with
        | inr err => (([creatingLine (withClientSettings cfg)], inr err), w)
        | inl client =>
            match serveVersion p client (cluster w) with
            | (inr err, c) =>
                (([creatingLine (withClientSettings cfg)], inr err),
                 {| config := config w; cluster := c; calls := calls w; logs := logs w |})
            | (inl v, c) =>
                (([creatingLine (withClientSettings cfg); runningLine v], inl client),
                 {| config := config w; cluster := c; calls := calls w; logs := logs w |})
            end
        end
    end.
Proof.
  unfold NewKubernetesClient, bind, viper_GetString, ret, Discovery_ServerVersion.
  destruct (buildConfigFromFlags _ _ _) as [cfg|err]; [|reflexivity].
  destruct (NewForConfig p (withClientSettings cfg)) as [client|err]; [|reflexivity].
  destruct (serveVersion p client (cluster w)) as [[v|err] c]; reflexivity.
Qed.

(** [NewKubernetesClient] calls no function on the deployments interface
    and leaves the configuration and the log of the controller alone. *)
Lemma NewKubernetesClient_frame p w :
  let w1 := snd (NewKubernetesClient p w) in
  calls w1 = calls w /\ config w1 = config w /\ logs w1 = logs w.
Proof.
  rewrite NewKubernetesClient_loads.
  destruct (buildConfigFromFlags _ _ _) as [cfg|err]; [|cbn; auto].
  destruct (NewForConfig p (withClientSettings cfg)) as [client|err]; [|cbn; auto].
  destruct (serveVersion p client (cluster w)) as [[v|err] c]; cbn; auto.
Qed.

(** The errors of [NewKubernetesClient].  When the configuration cannot be
    loaded, or no client can be built from it, that error is returned and
    the world is as it was: the server has not been asked anything.  When
    the server does not answer the version query, that error is returned
    instead of the client that was built. *)
Theorem NewKubernetesClient_errors p w (e : error) :
  let loaded :=
    buildConfigFromFlags p (default "" (config w !! "peer.kubernetes.endpoint"))
      (kubeConfigPath p (default "" (config w !! "peer.kubernetes.kubeconfig"))) in
  (loaded = inr e -> NewKubernetesClient p w = (([], inr e), w))
  /\ (forall cfg,
        loaded = inl cfg ->
        NewForConfig p (withClientSettings cfg) = inr e ->
        NewKubernetesClient p w = (([creatingLine (withClientSettings cfg)], inr e), w))
  /\ (forall cfg client (c : Cluster),
        loaded = inl cfg ->
        NewForConfig p (withClientSettings cfg) = inl client ->
        serveVersion p client (cluster w) = (inr e, c) ->
        NewKubernetesClient p w
        = (([creatingLine (withClientSettings cfg)], inr e),
           {| config := config w; cluster := c; calls := calls w; logs := logs w |})).
Proof.
  intros loaded. subst loaded. rewrite NewKubernetesClient_loads.
  split; [|split].
  - intros ->. reflexivity.
  - intros cfg -> ->. reflexivity.
  - intros cfg client c -> -> ->. reflexivity.
Qed.

(** The client [NewKubernetesClient] returns.  It is the client built from
    the loaded configuration with [QPS] and [Burst] set to [1e6] and the
    content type set to protobuf, the host and every other field being as
    loaded, and it is returned only once the server has answered the
    version query. *)
Theorem NewKubernetesClient_success p w (cfg : rest.Config RestOther) client
    (v : version.Info) (c : Cluster) :
  buildConfigFromFlags p (default "" (config w !! "peer.kubernetes.endpoint"))
    (kubeConfigPath p (default "" (config w !! "peer.kubernetes.kubeconfig"))) = inl cfg ->
  NewForConfig p
    {| rest.Host := rest.Host cfg; rest.QPS := 1000000; rest.Burst := 1000000;
       rest.ContentType := "application/vnd.kubernetes.protobuf";
       rest.other := rest.other cfg |} = inl client ->
  serveVersion p client (cluster w) = (inl v, c) ->
  NewKubernetesClient p w
  = (([creatingLine (withClientSettings cfg); runningLine v], inl client),
     {| config := config w; cluster := c; calls := calls w; logs := logs w |}).
Proof.
  intros Hl Hn Hv. rewrite NewKubernetesClient_loads, Hl.
  change (withClientSettings cfg)
    with {| rest.Host := rest.Host cfg; rest.QPS := 1000000; rest.Burst := 1000000;
            rest.ContentType := "application/vnd.kubernetes.protobuf";
            rest.other := rest.other cfg |} in *.
  rewrite Hn, Hv. reflexivity.
Qed.

(** [Start] and [Stop] of a controller made by [NewKubernetesVM].  When the
    client constructor fails, for whichever of its three reasons, they
    return its error and ask for no delete and no create.  When it gives a
    client, [Start] asks that client for the delete and the create and
    returns the answer of the create, and [Stop] asks it for the delete and
    returns its answer. *)
Theorem NewKubernetesVM_Start_Stop p ctxt ccid (args env : list string)
    builder prelaunchFunc (timeout : N) (dontkill dontremove : bool) w
    (lines : list GlogLine) (r : Clientset Cluster + error) w1 :
  NewKubernetesClient p w = ((lines, r), w1) ->
  let started := Start (NewKubernetesVM p) ctxt ccid args env builder prelaunchFunc w in
  let stopped := Stop (NewKubernetesVM p) ctxt ccid timeout dontkill dontremove w in
  let name := fst (GetVMName ccid None) in
  match r with
  | inr e =>
      fst started = Some e /\ calls (snd started) = calls w
      /\ fst stopped = Some e /\ calls (snd stopped) = calls w
  | inl client =>
      let deleted := serveDelete client apiv1.NamespaceDefault name foregroundDelete (cluster w1) in
      calls (snd started)
      = calls w ++ [ DeleteRequest apiv1.NamespaceDefault name foregroundDelete;
                     CreateRequest (startNamespace (config w)) (startDeployment name) ]
      /\ fst started
         = fst (serveCreate client (startNamespace (config w)) (startDeployment name)
                  (snd deleted))
      /\ calls (snd stopped)
         = calls w ++ [ DeleteRequest apiv1.NamespaceDefault name foregroundDelete ]
      /\ fst stopped = fst deleted
  end.
Proof.
  intros Hn started stopped name.
  pose proof (NewKubernetesClient_frame p w) as (Hcalls & Hcfg & _).
  rewrite Hn in Hcalls, Hcfg. cbn [snd] in Hcalls, Hcfg.
  assert (getClientFnc (NewKubernetesVM p) w = (r, w1)) as Hc.
  { cbn [getClientFnc NewKubernetesVM]. unfold getKubernetesClient, bind, ret.
    rewrite Hn. reflexivity. }
  destruct r as [client|e].
  - destruct (serveDelete client apiv1.NamespaceDefault name foregroundDelete (cluster w1))
      as [derr c1] eqn:Hd.
    destruct (serveCreate client (startNamespace (config w1)) (startDeployment name) c1)
      as [cerr c2] eqn:Hcr.
    destruct (Start_run (NewKubernetesVM p) ctxt ccid args env builder prelaunchFunc
                w client w1 derr cerr c1 c2 Hc Hd Hcr) as (l & E).
    assert (strings.Replace name ":" "_" = name) as Hrep.
    { apply Replace_absent. subst name. rewrite GetVMName_nil. cbn [fst].
      apply alphabet_no_byte; [reflexivity | apply ReplaceAllString_alphabet]. }
    assert (serveDelete client apiv1.NamespaceDefault
              (strings.Replace (fst (GetVMName ccid None)) ":" "_")
              foregroundDelete (cluster w1) = (derr, c1)) as Hd'.
    { fold name. rewrite Hrep. exact Hd. }
    destruct (Stop_run (NewKubernetesVM p) ctxt ccid timeout dontkill dontremove
                w client w1 derr c1 Hc Hd') as (l' & E').
    subst started stopped. rewrite E, E'. fold name. rewrite Hrep.
    cbn [fst snd calls]. rewrite Hcalls, Hcfg in *. rewrite Hcr. cbn [fst].
    auto.
  - destruct (Start_no_client (NewKubernetesVM p) ctxt ccid args env builder
                prelaunchFunc w e w1 Hc) as (l & E).
    destruct (Stop_no_client (NewKubernetesVM p) ctxt ccid timeout dontkill dontremove
                w e w1 Hc) as (l' & E').
    subst started stopped. rewrite E, E'. cbn [fst snd calls]. auto.
Qed.

End UtilProperties.

(** * More on naming *)

(** ** Sanitization works part by part *)

Lemma append_String (a : ascii) (t s : string) :
  String a t ++ s = String a (t ++ s).
Proof. reflexivity. Qed.

Lemma append_empty_l (s : string) : "" ++ s = s.
Proof. reflexivity. Qed.

(** A byte below [RuneSelf] is never taken into the rune that starts before
    it: what follows such a byte does not change how the bytes before it
    decode. *)
Lemma decode_app_ascii (a : ascii) (t : string) (c : ascii) (b : string) :
  byte_of c < 128 ->
  utf8.DecodeRuneInString (String a t ++ String c b)
  = utf8.DecodeRuneInString (String a t).
Proof.
  intros Hc. pose proof (byte_of_range c) as Hc0.
  destruct (Z.lt_ge_cases (byte_of a) 128) as [Ha|Ha].
  { rewrite append_String, !decode_ascii by assumption. reflexivity. }
  pose proof (byte_of_range a) as Ha0.
  destruct t as [|t1 [|t2 [|t3 t']]]; rewrite ?append_String, ?append_empty_l;
    unfold utf8.DecodeRuneInString;
    cbn [String.length Nat.ltb Nat.leb byte_at String.get];
    revert Hc Hc0 Ha Ha0;
    generalize (byte_of a) (byte_of c); intros b0 bc Hc Hc0 Ha Ha0;
    unfold utf8.first;
    repeat match goal with
           | |- context [b0 <? ?k] => destruct (Z.ltb_spec b0 k)
           | |- context [b0 =? ?k] => destruct (Z.eqb_spec b0 k)
           end; try lia.
  all: match goal with |- context [utf8.as_ <=? ?x] => closed_first x end.
  all: try reflexivity.
  all: unfold utf8.locb, utf8.hicb.
  all: repeat match goal with
         | H : ?x < 128 |- context [(?x <? ?k)] =>
             replace (x <? k) with true by (symmetry; apply Z.ltb_lt; lia)
         end.
  all: cbn [orb].
  all: repeat match goal with
         | |- context [if ?x then _ else _] => destruct x eqn:?
         end; try reflexivity.
Qed.

Lemma append_assoc (x y z : string) : (x ++ y) ++ z = x ++ (y ++ z).
Proof.
  induction x as [|a x IH]; [reflexivity|].
  rewrite !append_String, IH. reflexivity.
Qed.

Lemma append_empty_r (x : string) : x ++ "" = x.
Proof.
  induction x as [|a x IH]; [reflexivity|].
  rewrite append_String, IH. reflexivity.
Qed.

Lemma slice_from_app (n : nat) (x z : string) :
  (n <= String.length x)%nat -> slice_from n (x ++ z) = slice_from n x ++ z.
Proof.
  revert x. induction n as [|n IH]; intros x Hn; [reflexivity|].
  destruct x as [|a x]; [simpl in Hn; lia|].
  rewrite append_String. cbn [slice_from]. apply IH. simpl in Hn. lia.
Qed.

Lemma slice_to_app (n : nat) (x z : string) :
  (n <= String.length x)%nat -> slice_to n (x ++ z) = slice_to n x.
Proof.
  revert x. induction n as [|n IH]; intros x Hn; [reflexivity|].
  destruct x as [|a x]; [simpl in Hn; lia|].
  rewrite append_String. cbn [slice_to]. rewrite IH by (simpl in Hn; lia).
  reflexivity.
Qed.

(** [ReplaceAllString] unrolled by one rune. *)
Lemma ReplaceAllString_cons (a : ascii) (t : string) :
  exists r w,
    utf8.DecodeRuneInString (String a t) = (r, w)
    /\ (1 <= w <= S (String.length t))%nat
    /\ regexp.ReplaceAllString vmRegExp (String a t) "-"
       = (if regexp.matchRune vmRegExp r then "-" else slice_to w (String a t))
         ++ regexp.ReplaceAllString vmRegExp (slice_from w (String a t)) "-".
Proof.
  pose proof (decode_width a t) as Hw.
  destruct (utf8.DecodeRuneInString (String a t)) as [r w] eqn:E. cbn [snd] in Hw.
  exists r, w. split; [reflexivity | split; [exact Hw|]].
  unfold regexp.ReplaceAllString at 1. cbn [String.length regexp.replaceAll].
  rewrite E. f_equal.
  unfold regexp.ReplaceAllString.
  apply replaceAll_enough_fuel; rewrite ?length_slice_from; simpl; lia.
Qed.

(** The replacement goes through a name part by part when the next part
    starts with an ASCII byte. *)
Lemma ReplaceAllString_app_ascii (c : ascii) (b : string) :
  byte_of c < 128 ->
  forall (n : nat) (x : string),
    (String.length x <= n)%nat ->
    regexp.ReplaceAllString vmRegExp (x ++ String c b) "-"
    = regexp.ReplaceAllString vmRegExp x "-"
      ++ regexp.ReplaceAllString vmRegExp (String c b) "-".
Proof.
  intros Hc. induction n as [|n IH]; intros x Hn.
  - destruct x; [reflexivity | simpl in Hn; lia].
  - destruct x as [|a t]; [reflexivity|].
    simpl in Hn.
    destruct (ReplaceAllString_cons a t) as (r & w & E & Hw & ->).
    rewrite append_String.
    destruct (ReplaceAllString_cons a (t ++ String c b)) as (r' & w' & E' & _ & ->).
    rewrite <- append_String, decode_app_ascii in E' by exact Hc.
    rewrite E in E'. injection E' as <- <-.
    rewrite <- append_String.
    rewrite slice_to_app, slice_from_app by (simpl; lia).
    rewrite IH by (rewrite length_slice_from; simpl; lia).
    rewrite append_assoc. reflexivity.
Qed.

Lemma ReplaceAllString_dash (y : string) :
  regexp.ReplaceAllString vmRegExp (String "-" y) "-"
  = String "-" (regexp.ReplaceAllString vmRegExp y "-").
Proof.
  unfold regexp.ReplaceAllString. cbn [String.length].
  apply replaceAll_keep. reflexivity.
Qed.

(** An ASCII byte outside the alphabet is rewritten to [-] on its own. *)
Lemma ReplaceAllString_ascii_subst (c : ascii) (y : string) :
  byte_of c < 128 -> vmAlphabet c = false ->
  regexp.ReplaceAllString vmRegExp (String c y) "-"
  = String "-" (regexp.ReplaceAllString vmRegExp y "-").
Proof.
  intros Hc Ha.
  destruct (ReplaceAllString_cons c y) as (r & w & E & _ & ->).
  rewrite decode_ascii in E by exact Hc. injection E as <- <-.
  rewrite matchRune_vmRegExp. unfold vmAlphabet in Ha. rewrite Ha. reflexivity.
Qed.

Lemma ReplaceAllString_join (x y : string) :
  regexp.ReplaceAllString vmRegExp (x ++ "-" ++ y) "-"
  = regexp.ReplaceAllString vmRegExp x "-" ++ "-"
    ++ regexp.ReplaceAllString vmRegExp y "-".
Proof.
  change ("-" ++ y) with (String "-" y).
  rewrite (ReplaceAllString_app_ascii "-" y ltac:(vm_compute; reflexivity)
             (String.length x) x (le_n _)).
  rewrite ReplaceAllString_dash. reflexivity.
Qed.

(** Each part of the identity is sanitized on its own and the separators of
    the join stay: the resolved name is the sanitized network id, peer id
    and base name, those that are there, with a [-] between them.  A
    character outside the alphabet in one part never changes what becomes
    of another part. *)
Theorem GetVMName_sanitizes_parts (ccid : CCID) :
  let sanitized s := regexp.ReplaceAllString vmRegExp s "-" in
  (NetworkID ccid <> "" -> PeerID ccid <> "" ->
   fst (GetVMName ccid None)
   = sanitized (NetworkID ccid) ++ "-" ++ sanitized (PeerID ccid) ++ "-"
     ++ sanitized (GetName ccid))
  /\ (NetworkID ccid <> "" -> PeerID ccid = "" ->
      fst (GetVMName ccid None)
      = sanitized (NetworkID ccid) ++ "-" ++ sanitized (GetName ccid))
  /\ (NetworkID ccid = "" -> PeerID ccid <> "" ->
      fst (GetVMName ccid None)
      = sanitized (PeerID ccid) ++ "-" ++ sanitized (GetName ccid))
  /\ (NetworkID ccid = "" -> PeerID ccid = "" ->
      fst (GetVMName ccid None) = sanitized (GetName ccid)).
Proof.
  intros sanitized. subst sanitized. cbv beta.
  rewrite GetVMName_nil. cbn [fst]. unfold joinedName.
  destruct (String.eqb_spec (NetworkID ccid) "") as [Hn|Hn];
    destruct (String.eqb_spec (PeerID ccid) "") as [Hp|Hp];
    cbn [negb andb]; repeat split; intros; try contradiction;
    rewrite ?ReplaceAllString_join; reflexivity.
Qed.

Lemma GetVMName_sanitizes_parts_witness :
  fst (GetVMName {| NetworkID := "dev net"; PeerID := "peer:0"; baseName := "my/cc" |} None)
  = "dev-net" ++ "-" ++ "peer-0" ++ "-" ++ "my-cc".
Proof.
  apply (GetVMName_sanitizes_parts
           {| NetworkID := "dev net"; PeerID := "peer:0"; baseName := "my/cc" |});
    discriminate.
Defined.

(** ** Identities that share a name *)

Lemma append_nonempty_l (x y : string) : x <> "" -> x ++ y <> "".
Proof. destruct x; [contradiction | discriminate]. Qed.

Lemma append_nonempty_r (x y : string) : y <> "" -> x ++ y <> "".
Proof.
  intros Hy. destruct x as [|a x]; [exact Hy | discriminate].
Qed.

Lemma joinedName_both (ccid : CCID) :
  NetworkID ccid <> "" -> PeerID ccid <> "" ->
  joinedName ccid = NetworkID ccid ++ "-" ++ PeerID ccid ++ "-" ++ GetName ccid.
Proof.
  intros Hn Hp. unfold joinedName.
  destruct (String.eqb_spec (NetworkID ccid) "") as [|_]; [contradiction|].
  destruct (String.eqb_spec (PeerID ccid) "") as [|_]; [contradiction|].
  reflexivity.
Qed.

Lemma GetVMName_joinedName (ccid ccid' : CCID)
    (format : option (string -> string * option error)) :
  joinedName ccid = joinedName ccid' -> GetVMName ccid format = GetVMName ccid' format.
Proof. intros H. unfold GetVMName. rewrite H. reflexivity. Qed.

(** The join does not tell where one part ends and the next begins: a [-]
    may belong to the network id or to the peer id.  The identities with
    network id [a-b] and peer id [c], and with network id [a] and peer id
    [b-c], resolve alike, with every format function. *)
Theorem GetVMName_dash_ambiguity (a b c name : string)
    (format : option (string -> string * option error)) :
  a <> "" -> c <> "" ->
  GetVMName {| NetworkID := a ++ "-" ++ b; PeerID := c; baseName := name |} format
  = GetVMName {| NetworkID := a; PeerID := b ++ "-" ++ c; baseName := name |} format.
Proof.
  intros Ha Hc. apply GetVMName_joinedName.
  rewrite !joinedName_both; cbn [NetworkID PeerID GetName baseName];
    try assumption;
    try (apply append_nonempty_l; assumption);
    try (apply append_nonempty_r, append_nonempty_r; assumption).
  rewrite !append_assoc. reflexivity.
Qed.

Lemma GetVMName_dash_ambiguity_witness :
  GetVMName {| NetworkID := "org1-dev"; PeerID := "peer0"; baseName := "mycc" |} None
  = GetVMName {| NetworkID := "org1"; PeerID := "dev-peer0"; baseName := "mycc" |} None.
Proof.
  apply (GetVMName_dash_ambiguity "org1" "dev" "peer0" "mycc" None); discriminate.
Defined.

(** Sanitization does not tell an ASCII character outside the alphabet from
    a [-]: two identities whose base names differ in one such character
    only resolve to the same name. *)
Theorem GetVMName_character_collision (network peer x y : string) (c : ascii) :
  byte_of c < 128 -> vmAlphabet c = false ->
  GetVMName {| NetworkID := network; PeerID := peer; baseName := x ++ String c y |} None
  = GetVMName {| NetworkID := network; PeerID := peer; baseName := x ++ String "-" y |} None.
Proof.
  intros Hc Ha. rewrite !GetVMName_nil. f_equal.
  assert (forall z : string,
            regexp.ReplaceAllString vmRegExp (z ++ String c y) "-"
            = regexp.ReplaceAllString vmRegExp (z ++ String "-" y) "-") as Hz.
  { intros z.
    rewrite (ReplaceAllString_app_ascii c y Hc (String.length z) z (le_n _)).
    rewrite (ReplaceAllString_app_ascii "-" y ltac:(vm_compute; reflexivity)
               (String.length z) z (le_n _)).
    rewrite ReplaceAllString_ascii_subst, ReplaceAllString_dash by assumption.
    reflexivity. }
  unfold joinedName. cbn [NetworkID PeerID GetName baseName].
  destruct (negb (network =? "")%string), (negb (peer =? "")%string); cbn [andb].
  - rewrite <- !append_assoc. apply Hz.
  - rewrite <- !append_assoc. apply Hz.
  - rewrite <- !append_assoc. apply Hz.
  - apply Hz.
Qed.

Lemma GetVMName_character_collision_witness :
  GetVMName {| NetworkID := "net1"; PeerID := ""; baseName := "my" ++ String " " "cc" |} None
  = GetVMName {| NetworkID := "net1"; PeerID := ""; baseName := "my" ++ String "-" "cc" |} None.
Proof.
  apply (GetVMName_character_collision "net1" "" "my" "cc" " ");
    [vm_compute; reflexivity | reflexivity].
Defined.

(** ** Length *)






(** ** What the controller tells apart *)

Section SameName.

Context {Cluster : Type}.
Context {context_Context BuildSpecFactory PrelaunchFunc : Type}.

Implicit Types (vm : KubernetesVM Cluster) (w : World Cluster)
  (ctxt : context_Context) (ccid : CCID)
  (builder : BuildSpecFactory) (prelaunchFunc : PrelaunchFunc).

(** The controller knows a workload by its resolved name only.  For two
    identities that resolve to the same name, [Start] does the same and
    [Stop] does the same, in every world: the same calls on the client, the
    same result, the same world after.  Nothing the controller asks of the
    server tells one identity from the other. *)
Theorem same_name_same_workload vm ctxt ccid (ccid' : CCID) (args env : list string)
    builder prelaunchFunc (timeout : N) (dontkill dontremove : bool) w :
  fst (GetVMName ccid None) = fst (GetVMName ccid' None) ->
  Start vm ctxt ccid args env builder prelaunchFunc w
  = Start vm ctxt ccid' args env builder prelaunchFunc w
  /\ Stop vm ctxt ccid timeout dontkill dontremove w
     = Stop vm ctxt ccid' timeout dontkill dontremove w.
Proof.
  intros H. rewrite !GetVMName_nil in H. cbn [fst] in H.
  unfold Start, Stop. rewrite !GetVMName_nil, H. split; reflexivity.
Qed.

End SameName.

Lemma same_name_same_workload_witness :
  let my_cc := {| NetworkID := "net1"; PeerID := "peer1"; baseName := "my cc" |} in
  let my_cc' := {| NetworkID := "net1"; PeerID := "peer1"; baseName := "my-cc" |} in
  let w := snd (Start exampleVM tt my_cc [] [] tt tt (exampleWorld ∅)) in
  Start exampleVM tt my_cc [] [] tt tt w = Start exampleVM tt my_cc' [] [] tt tt w
  /\ Stop exampleVM tt my_cc 0 false false w = Stop exampleVM tt my_cc' 0 false false w.
Proof.
  intros my_cc my_cc' w.
  apply (same_name_same_workload exampleVM tt my_cc my_cc' [] [] tt tt 0%N false false w).
  vm_compute. reflexivity.
Defined.

(** * The second revision of [Start] *)

Section Rev2Properties.

Local Open Scope list_scope.

Context {Cluster : Type}.
Context {context_Context BuildSpecFactory PrelaunchFunc : Type}.

Implicit Types (vm : rev2.KubernetesVM Cluster) (w : rev2.World Cluster)
  (client : rev2.Clientset Cluster) (ctxt : context_Context) (ccid : CCID)
  (builder : BuildSpecFactory) (prelaunchFunc : PrelaunchFunc).




End Rev2Properties.


(** * The added properties at work *)

Lemma kubeconfig_source_witness :
  kubeConfigPath examplePlatform "" = "/root/.kube/config"
  /\ buildConfigFromFlags examplePlatform "" (kubeConfigPath examplePlatform "")
     = ClientConfig examplePlatform "/root/.kube/config" "".
Proof.
  destruct (kubeconfig_source examplePlatform "" "") as (_ & H2 & _ & H4 & _).
  destruct (H4 eq_refl ltac:(discriminate)) as [Hp _].
  split.
  - rewrite Hp. vm_compute. reflexivity.
  - rewrite H2 by (right; right; discriminate). rewrite Hp. vm_compute. reflexivity.
Defined.

Lemma NewKubernetesClient_errors_witness :
  NewKubernetesClient unreachablePlatform (exampleWorld ∅)
  = (([ {| glog_format := "Creating API client for %s";
           glog_args := [ArgString "https://10.0.0.1:6443"] |} ],
      inr (errorString "connection refused")),
     exampleWorld ∅).
Proof.
  apply (proj2 (proj2 (NewKubernetesClient_errors unreachablePlatform (exampleWorld ∅)
                         (errorString "connection refused")))
           {| rest.Host := "https://10.0.0.1:6443"; rest.QPS := 5; rest.Burst := 10;
              rest.ContentType := ""; rest.other := tt |}
           exampleClientset ∅);
    vm_compute; reflexivity.
Defined.

Lemma NewKubernetesClient_success_witness :
  fst (NewKubernetesClient examplePlatform
         (exampleWorld {[ "peer.kubernetes.endpoint" := "https://k8s.example:6443" ]}))
  = ([ {| glog_format := "Creating API client for %s";
          glog_args := [ArgString "https://k8s.example:6443"] |};
       {| glog_format := "Running in Kubernetes Cluster version v%v.%v (%v) - git (%v) commit %v - platform %v";
          glog_args := [ ArgString "1"; ArgString "8"; ArgString "v1.8.0";
                         ArgString "clean"; ArgString "6e93783";
                         ArgString "linux/amd64" ] |} ],
     inl exampleClientset).
Proof.
  rewrite (NewKubernetesClient_success examplePlatform
             (exampleWorld {[ "peer.kubernetes.endpoint" := "https://k8s.example:6443" ]})
             {| rest.Host := "https://k8s.example:6443"; rest.QPS := 5; rest.Burst := 10;
                rest.ContentType := ""; rest.other := tt |}
             exampleClientset
             {| version.Major := "1"; version.Minor := "8";
                version.GitVersion := "v1.8.0"; version.GitCommit := "6e93783";
                version.GitTreeState := "clean"; version.BuildDate := "";
                version.GoVersion := "go1.8.3"; version.Compiler := "gc";
                version.Platform := "linux/amd64" |}
             ∅);
    [reflexivity | vm_compute; reflexivity | reflexivity | reflexivity].
Defined.

Lemma NewKubernetesVM_Start_Stop_witness :
  let started :=
    Start (NewKubernetesVM unreachablePlatform) tt net1_peer1_mycc [] [] tt tt (exampleWorld ∅) in
  let stopped :=
    Stop (NewKubernetesVM unreachablePlatform) tt net1_peer1_mycc 0 false false (exampleWorld ∅) in
  fst started = Some (errorString "connection refused") /\ calls (snd started) = []
  /\ fst stopped = Some (errorString "connection refused") /\ calls (snd stopped) = [].
Proof.
  apply (NewKubernetesVM_Start_Stop unreachablePlatform tt net1_peer1_mycc [] [] tt tt
           0%N false false (exampleWorld ∅)
           [ {| glog_format := "Creating API client for %s";
                glog_args := [ArgString "https://10.0.0.1:6443"] |} ]
           (inr (errorString "connection refused")) (exampleWorld ∅)).
  vm_compute. reflexivity.
Defined.

(** ** What [Start] and [Stop] leave alone *)

Section Frame.

Local Open Scope list_scope.

Context {Cluster : Type}.
Context {context_Context BuildSpecFactory PrelaunchFunc : Type}.

Implicit Types (vm : KubernetesVM Cluster) (w : World Cluster)
  (client : Clientset Cluster) (ctxt : context_Context) (ccid : CCID)
  (builder : BuildSpecFactory) (prelaunchFunc : PrelaunchFunc).

(** [Start] and [Stop] read the configuration and never write it, and they
    only add to the log: after either, the configuration is the one the
    client constructor left and the log begins with the log it left. *)
Theorem Start_Stop_keep_configuration vm ctxt ccid (args env : list string)
    builder prelaunchFunc (timeout : N) (dontkill dontremove : bool)
    w client w1 :
  getClientFnc vm w = (inl client, w1) ->
  let started := snd (Start vm ctxt ccid args env builder prelaunchFunc w) in
  let stopped := snd (Stop vm ctxt ccid timeout dontkill dontremove w) in
  config started = config w1
  /\ config stopped = config w1
  /\ (exists l, logs started = logs w1 ++ l)
  /\ (exists l, logs stopped = logs w1 ++ l).
Proof.
  intros Hc started stopped.
  destruct (serveDelete client apiv1.NamespaceDefault (fst (GetVMName ccid None))
              foregroundDelete (cluster w1)) as [derr c1] eqn:Hd.
  destruct (serveCreate client (startNamespace (config w1))
              (startDeployment (fst (GetVMName ccid None))) c1) as [cerr c2] eqn:Hcr.
  destruct (Start_run vm ctxt ccid args env builder prelaunchFunc
              w client w1 derr cerr c1 c2 Hc Hd Hcr) as (l & E).
  destruct (serveDelete client apiv1.NamespaceDefault
              (strings.Replace (fst (GetVMName ccid None)) ":" "_")
              foregroundDelete (cluster w1)) as [derr' c1'] eqn:Hd'.
  destruct (Stop_run vm ctxt ccid timeout dontkill dontremove
              w client w1 derr' c1' Hc Hd') as (l' & E').
  subst started stopped. rewrite E, E'. cbn [snd config logs].
  repeat split; eauto.
Qed.

End Frame.

Lemma Start_Stop_keep_configuration_witness :
  let w := exampleWorld {[ "peer.kubernetes.namespace" := "fabric" ]} in
  config (snd (Start exampleVM tt net1_peer1_mycc [] [] tt tt w))
  = {[ "peer.kubernetes.namespace" := "fabric" ]}
  /\ config (snd (Stop exampleVM tt net1_peer1_mycc 0 false false w))
     = {[ "peer.kubernetes.namespace" := "fabric" ]}.
Proof.
  intros w.
  destruct (Start_Stop_keep_configuration exampleVM tt net1_peer1_mycc [] [] tt tt
              0%N false false w exampleClientset w eq_refl) as (H1 & H2 & _).
  split; [exact H1 | exact H2].
Defined.
